(** * Verification of [update_db_generator.py]

    A shallow embedding of the update-database generator of
    mister_cloud_saves_update_db and the proofs of its specification.

    Layout: the data model (bytes, MD5 as computed by [hashlib], JSON values
    and Python's [json] text format), the process model (standard output,
    file system, network and clock), the five functions of the script, and
    then the theorems. *)

From Stdlib Require Import ZArith List Lia Bool.
From Stdlib Require Import Strings.String Strings.Ascii Strings.Byte.
From stdpp Require Import base option list gmap strings.
From Equations.Prop Require Import Equations Logic.

Local Open Scope string_scope.
Local Open Scope list_scope.
Local Open Scope Z_scope.

(** ** Bytes *)

Abbreviation bytes := (list byte).

Definition byte_to_Z (b : byte) : Z := Z.of_N (Byte.to_N b).

Definition byte_of_Z (z : Z) : byte :=
  match Byte.of_N (Z.to_N (z mod 256)) with
  | Some b => b
  | None => x00
  end.

(** A bytes literal [b"..."]. *)
Definition b (s : string) : bytes := list_byte_of_string s.

(** ** MD5, the digest [hashlib.new("md5")] computes (RFC 1321) *)

Module MD5.

(** 32-bit words are integers reduced with a mask after every operation. *)
Definition wrap (x : Z) : Z := Z.land x 0xFFFFFFFF.
Definition add32 (x y : Z) : Z := wrap (x + y).
Definition not32 (x : Z) : Z := Z.lxor x 0xFFFFFFFF.
Definition rotl32 (x n : Z) : Z :=
  wrap (Z.lor (Z.shiftl x n) (Z.shiftr x (32 - n))).

Definition K : list Z :=
  [ 0xd76aa478; 0xe8c7b756; 0x242070db; 0xc1bdceee;
    0xf57c0faf; 0x4787c62a; 0xa8304613; 0xfd469501;
    0x698098d8; 0x8b44f7af; 0xffff5bb1; 0x895cd7be;
    0x6b901122; 0xfd987193; 0xa679438e; 0x49b40821;
    0xf61e2562; 0xc040b340; 0x265e5a51; 0xe9b6c7aa;
    0xd62f105d; 0x02441453; 0xd8a1e681; 0xe7d3fbc8;
    0x21e1cde6; 0xc33707d6; 0xf4d50d87; 0x455a14ed;
    0xa9e3e905; 0xfcefa3f8; 0x676f02d9; 0x8d2a4c8a;
    0xfffa3942; 0x8771f681; 0x6d9d6122; 0xfde5380c;
    0xa4beea44; 0x4bdecfa9; 0xf6bb4b60; 0xbebfbc70;
    0x289b7ec6; 0xeaa127fa; 0xd4ef3085; 0x04881d05;
    0xd9d4d039; 0xe6db99e5; 0x1fa27cf8; 0xc4ac5665;
    0xf4292244; 0x432aff97; 0xab9423a7; 0xfc93a039;
    0x655b59c3; 0x8f0ccc92; 0xffeff47d; 0x85845dd1;
    0x6fa87e4f; 0xfe2ce6e0; 0xa3014314; 0x4e0811a1;
    0xf7537e82; 0xbd3af235; 0x2ad7d2bb; 0xeb86d391 ].

Definition shifts : list Z :=
  [ 7; 12; 17; 22; 7; 12; 17; 22; 7; 12; 17; 22; 7; 12; 17; 22;
    5; 9; 14; 20; 5; 9; 14; 20; 5; 9; 14; 20; 5; 9; 14; 20;
    4; 11; 16; 23; 4; 11; 16; 23; 4; 11; 16; 23; 4; 11; 16; 23;
    6; 10; 15; 21; 6; 10; 15; 21; 6; 10; 15; 21; 6; 10; 15; 21 ].

Definition state : Type := Z * Z * Z * Z.

Definition init : state := (0x67452301, 0xefcdab89, 0x98badcfe, 0x10325476).

(** Little-endian words of a block. *)
Definition le_word (b0 b1 b2 b3 : byte) : Z :=
  Z.lor (byte_to_Z b0)
    (Z.lor (Z.shiftl (byte_to_Z b1) 8)
       (Z.lor (Z.shiftl (byte_to_Z b2) 16) (Z.shiftl (byte_to_Z b3) 24))).

Fixpoint words_of_block (l : bytes) : list Z :=
  match l with
  | b0 :: b1 :: b2 :: b3 :: r => le_word b0 b1 b2 b3 :: words_of_block r
  | _ => []
  end.

Definition round_step (M : list Z) (st : state) (i : nat) : state :=
  let '(a, b, c, d) := st in
  let '(f, g) :=
    if (i <? 16)%nat then
      (Z.lor (Z.land b c) (Z.land (not32 b) d), i)
    else if (i <? 32)%nat then
      (Z.lor (Z.land d b) (Z.land (not32 d) c), ((5 * i + 1) mod 16)%nat)
    else if (i <? 48)%nat then
      (Z.lxor (Z.lxor b c) d, ((3 * i + 5) mod 16)%nat)
    else
      (Z.lxor c (Z.lor b (not32 d)), ((7 * i) mod 16)%nat) in
  let f' := add32 (add32 (add32 f a) (nth i K 0)) (nth g M 0) in
  (d, add32 b (rotl32 f' (nth i shifts 0)), b, c).

Definition compress (h : state) (block : bytes) : state :=
  let '(a, b, c, d) := fold_left (round_step (words_of_block block)) (seq 0 64) h in
  let '(a0, b0, c0, d0) := h in
  (add32 a0 a, add32 b0 b, add32 c0 c, add32 d0 d).

(** The complete 64-byte blocks of a byte string, in order. *)
Fixpoint blocks_aux (n : nat) (l : bytes) : list bytes :=
  match n with
  | O => []
  | S n' => take 64 l :: blocks_aux n' (drop 64 l)
  end.

Definition blocks (l : bytes) : list bytes := blocks_aux (length l / 64) l.

Fixpoint le_bytes (n : nat) (x : Z) : bytes :=
  match n with
  | O => []
  | S n' => byte_of_Z x :: le_bytes n' (Z.shiftr x 8)
  end.

(** Padding of a message of [len] bytes: a one bit, zeros up to 56 modulo
    64, and the bit length on 64 bits. *)
Definition padding (len : nat) : bytes :=
  x80 :: repeat x00 ((119 - len mod 64) mod 64)
    ++ le_bytes 8 ((8 * Z.of_nat len) mod 2 ^ 64).

Definition digest_of_state (h : state) : bytes :=
  let '(a, b, c, d) := h in
  le_bytes 4 a ++ le_bytes 4 b ++ le_bytes 4 c ++ le_bytes 4 d.

(** One-shot digest of a whole message. *)
Definition digest (msg : bytes) : bytes :=
  digest_of_state (fold_left compress (blocks (msg ++ padding (length msg))) init).

Definition hex_digit (n : Z) : ascii :=
  nth (Z.to_nat n)
    (list_ascii_of_string "0123456789abcdef") "0"%char.

Fixpoint hex (l : bytes) : string :=
  match l with
  | [] => EmptyString
  | x :: r =>
      String (hex_digit (byte_to_Z x / 16))
        (String (hex_digit (byte_to_Z x mod 16)) (hex r))
  end.

Definition hexdigest (msg : bytes) : string := hex (digest msg).

(** The hash object: chaining value, bytes not yet forming a block, and
    the number of bytes seen. *)
Record ctx := { chain : state; pending : bytes; count : nat }.

Definition new : ctx := {| chain := init; pending := []; count := 0 |}.

(** [hash_func.update(data)]: compress every complete block, keep the tail. *)
Definition update (c : ctx) (data : bytes) : ctx :=
  let buf := pending c ++ data in
  {| chain := fold_left compress (blocks buf) (chain c);
     pending := drop (64 * (length buf / 64)) buf;
     count := count c + length data |}.

(** [hash_func.hexdigest()]. *)
Definition ctx_hexdigest (c : ctx) : string :=
  hex (digest_of_state
         (fold_left compress (blocks (pending c ++ padding (count c))) (chain c))).

End MD5.


(** ** JSON values

    The values [json.load] builds and [json.dump] accepts, without floats:
    [None], [bool], [int], [str], [list] and [dict] with [str] keys.  A
    [dict] keeps its insertion order, which is the order [json.dump] writes;
    a character of a [str] stands for the code point of the same number. *)

Unset Elimination Schemes.
Inductive json : Type :=
| JNull
| JBool (v : bool)
| JInt (n : Z)
| JStr (s : string)
| JList (l : list json)
| JDict (items : list (string * json)).
Set Elimination Schemes.

(** Induction with the hypotheses for the values inside lists and dicts. *)
Fixpoint json_ind (P : json -> Prop)
    (Hnull : P JNull) (Hbool : forall v, P (JBool v)) (Hint : forall n, P (JInt n))
    (Hstr : forall s, P (JStr s))
    (Hlist : forall l, Forall P l -> P (JList l))
    (Hdict : forall items, Forall (fun kv => P (snd kv)) items -> P (JDict items))
    (j : json) {struct j} : P j :=
  let rec := json_ind P Hnull Hbool Hint Hstr Hlist Hdict in
  match j with
  | JNull => Hnull
  | JBool v => Hbool v
  | JInt n => Hint n
  | JStr s => Hstr s
  | JList l =>
      Hlist l ((fix go (l : list json) : Forall P l :=
                  match l with
                  | [] => @List.Forall_nil _ P
                  | x :: r => @List.Forall_cons _ P x r (rec x) (go r)
                  end) l)
  | JDict items =>
      Hdict items
        ((fix go (l : list (string * json)) : Forall (fun kv => P (snd kv)) l :=
            match l with
            | [] => @List.Forall_nil _ _
            | kv :: r => @List.Forall_cons _ _ kv r (rec (snd kv)) (go r)
            end) items)
  end.

(** *** Python dictionaries as insertion-ordered association lists *)

Abbreviation dict := (list (string * json)).

Fixpoint dict_get (d : dict) (k : string) : option json :=
  match d with
  | [] => None
  | (k', v) :: r => if String.eqb k' k then Some v else dict_get r k
  end.

(** [d[k] = v]: an existing key keeps its place, a new one goes last. *)
Fixpoint dict_set (d : dict) (k : string) (v : json) : dict :=
  match d with
  | [] => [(k, v)]
  | (k', v') :: r =>
      if String.eqb k' k then (k', v) :: r else (k', v') :: dict_set r k v
  end.

Definition dict_keys (d : dict) : list string := map fst d.

(** The dict built from a sequence of key/value pairs set one after the
    other. *)
Definition dict_of_pairs (l : list (string * json)) : dict :=
  fold_left (fun d kv => dict_set d (fst kv) (snd kv)) l [].

(** A Python dict never holds a key twice. *)
Fixpoint wf (j : json) : Prop :=
  match j with
  | JList l => (fix go (l : list json) : Prop :=
                  match l with [] => True | x :: r => wf x /\ go r end) l
  | JDict items =>
      NoDup (dict_keys items)
      /\ (fix go (l : dict) : Prop :=
            match l with [] => True | kv :: r => wf (snd kv) /\ go r end) items
  | _ => True
  end.

(** *** Python's [==] on these values

    [bool] is a subtype of [int]: [True == 1] and [False == 0].  Lists are
    compared element by element, dicts key by key whatever their order. *)

Definition Z_of_bool (v : bool) : Z := if v then 1 else 0.

Fixpoint py_eq (x y : json) {struct x} : bool :=
  match x, y with
  | JNull, JNull => true
  | JBool u, JBool v => Bool.eqb u v
  | JBool u, JInt n => Z_of_bool u =? n
  | JInt m, JBool v => m =? Z_of_bool v
  | JInt m, JInt n => m =? n
  | JStr s, JStr s' => String.eqb s s'
  | JList l, JList l' =>
      (fix go (l l' : list json) {struct l} : bool :=
         match l, l' with
         | [], [] => true
         | a :: r, a' :: r' => py_eq a a' && go r r'
         | _, _ => false
         end) l l'
  | JDict d, JDict d' =>
      (length d =? length d')%nat
      && (fix go (l : dict) : bool :=
            match l with
            | [] => true
            | kv :: r =>
                match dict_get d' (fst kv) with
                | Some v' => py_eq (snd kv) v' && go r
                | None => false
                end
            end) d
  | _, _ => false
  end.

(** ** The text format of Python's [json] module *)

Abbreviation text := (list ascii).

Definition t (s : string) : text := list_ascii_of_string s.

Definition code (c : ascii) : Z := Z.of_N (N_of_ascii c).
Definition chr (z : Z) : ascii := ascii_of_N (Z.to_N z).

(** *** [json.dump(obj, fp, indent=4)] *)

Definition digit_char (d : Z) : ascii := chr (48 + d).

Fixpoint digits_aux (fuel : nat) (n : Z) (acc : text) : text :=
  match fuel with
  | O => acc
  | S fuel' =>
      let acc' := digit_char (n mod 10) :: acc in
      if n <? 10 then acc' else digits_aux fuel' (n / 10) acc'
  end.

(** Decimal digits of [n >= 0]; a number has at most [log2 n + 1] of them. *)
Definition digits (n : Z) : text := digits_aux (S (Z.to_nat (Z.log2 n))) n [].

(** [int.__repr__]. *)
Definition int_repr (n : Z) : text :=
  if n <? 0 then "-"%char :: digits (- n) else digits n.

Definition hex_char (d : Z) : ascii := MD5.hex_digit d.

(** One character of a string under [ensure_ascii=True]. *)
Definition escape_char (c : ascii) : text :=
  if Ascii.eqb c "034"%char then ["\"%char; "034"%char]
  else if Ascii.eqb c "\"%char then t "\\"
  else if Ascii.eqb c "010"%char then t "\n"
  else if Ascii.eqb c "013"%char then t "\r"
  else if Ascii.eqb c "009"%char then t "\t"
  else if Ascii.eqb c "008"%char then t "\b"
  else if Ascii.eqb c "012"%char then t "\f"
  else if (32 <=? code c) && (code c <=? 126) then [c]
  else t "\u00" ++ [hex_char (code c / 16); hex_char (code c mod 16)].

Fixpoint escape (s : string) : text :=
  match s with
  | EmptyString => []
  | String c r => escape_char c ++ escape r
  end.

Definition encode_string (s : string) : text :=
  "034"%char :: escape s ++ ["034"%char].

Definition newline_indent (level : nat) : text :=
  "010"%char :: repeat " "%char (4 * level).

(** Items joined by a comma and the indentation of their level. *)
Fixpoint join_items (level : nat) (l : list text) : text :=
  match l with
  | [] => []
  | [x] => x
  | x :: r => x ++ ","%char :: newline_indent level ++ join_items level r
  end.

Fixpoint dump (level : nat) (j : json) {struct j} : text :=
  match j with
  | JNull => t "null"
  | JBool true => t "true"
  | JBool false => t "false"
  | JInt n => int_repr n
  | JStr s => encode_string s
  | JList [] => t "[]"
  | JList l =>
      "["%char :: newline_indent (S level)
        ++ join_items (S level) (map (dump (S level)) l)
        ++ newline_indent level ++ t "]"
  | JDict [] => t "{}"
  | JDict items =>
      "{"%char :: newline_indent (S level)
        ++ join_items (S level)
             (map (fun kv => encode_string (fst kv) ++ t ": " ++ dump (S level) (snd kv))
                items)
        ++ newline_indent level ++ t "}"
  end.

Definition json_dumps (j : json) : text := dump 0 j.

(** *** [json.load]

    The result of scanning a text: a value and the text left, a
    [JSONDecodeError], or a text this development does not give a value to
    (a float literal, an escape for a code point of 256 or more, nesting
    deeper than the budget). *)

Inductive parse (A : Type) : Type :=
| Parsed (a : A) (rest : text)
| Malformed
| Unmodelled.
Arguments Parsed {A} a rest.
Arguments Malformed {A}.
Arguments Unmodelled {A}.

Definition parse_bind {A B} (p : parse A) (k : A -> text -> parse B) : parse B :=
  match p with
  | Parsed a rest => k a rest
  | Malformed => Malformed
  | Unmodelled => Unmodelled
  end.

Definition is_ws (c : ascii) : bool :=
  Ascii.eqb c " "%char || Ascii.eqb c "009"%char
  || Ascii.eqb c "010"%char || Ascii.eqb c "013"%char.

Fixpoint skip_ws (s : text) : text :=
  match s with
  | c :: r => if is_ws c then skip_ws r else s
  | [] => []
  end.

Definition is_digit (c : ascii) : bool := (48 <=? code c) && (code c <=? 57).

Definition hex_value (c : ascii) : option Z :=
  let n := code c in
  if (48 <=? n) && (n <=? 57) then Some (n - 48)
  else if (97 <=? n) && (n <=? 102) then Some (n - 87)
  else if (65 <=? n) && (n <=? 70) then Some (n - 55)
  else None.

(** The four hex digits after a backslash and [u]. *)
Definition scan_u (s : text) : parse ascii :=
  match s with
  | h1 :: h2 :: h3 :: h4 :: rest =>
      match hex_value h1, hex_value h2, hex_value h3, hex_value h4 with
      | Some d1, Some d2, Some d3, Some d4 =>
          let n := ((d1 * 16 + d2) * 16 + d3) * 16 + d4 in
          if n <? 256 then Parsed (chr n) rest else Unmodelled
      | _, _, _, _ => Malformed
      end
  | _ => Malformed
  end.

Definition unescape (e : ascii) : option ascii :=
  if Ascii.eqb e "034"%char then Some "034"%char
  else if Ascii.eqb e "\"%char then Some "\"%char
  else if Ascii.eqb e "/"%char then Some "/"%char
  else if Ascii.eqb e "b"%char then Some "008"%char
  else if Ascii.eqb e "f"%char then Some "012"%char
  else if Ascii.eqb e "n"%char then Some "010"%char
  else if Ascii.eqb e "r"%char then Some "013"%char
  else if Ascii.eqb e "t"%char then Some "009"%char
  else None.

(** The string scanner in strict mode, entered after the opening quote. *)
Fixpoint scan_string (s : text) : parse string :=
  match s with
  | [] => Malformed
  | c :: r =>
      if Ascii.eqb c "034"%char then Parsed EmptyString r
      else if Ascii.eqb c "\"%char then
        match r with
        | [] => Malformed
        | e :: r' =>
            if Ascii.eqb e "u"%char then
              match r' with
              | h1 :: h2 :: h3 :: h4 :: r'' =>
                  parse_bind (scan_u [h1; h2; h3; h4])
                    (fun c' _ => parse_bind (scan_string r'')
                                   (fun s' rest => Parsed (String c' s') rest))
              | _ => Malformed
              end
            else
              match unescape e with
              | Some c' => parse_bind (scan_string r')
                             (fun s' rest => Parsed (String c' s') rest)
              | None => Malformed
              end
        end
      else if code c <? 32 then Malformed
      else parse_bind (scan_string r) (fun s' rest => Parsed (String c s') rest)
  end.

(** Value of a run of digits, most significant first. *)
Fixpoint scan_digits (s : text) (acc : Z) : Z * text :=
  match s with
  | c :: r => if is_digit c then scan_digits r (10 * acc + (code c - 48)) else (acc, s)
  | [] => (acc, [])
  end.

(** Does a fraction or an exponent follow the integer part? *)
Definition float_follows (s : text) : bool :=
  match s with
  | c :: d :: r =>
      if Ascii.eqb c "."%char then is_digit d
      else if Ascii.eqb c "e"%char || Ascii.eqb c "E"%char then
        if Ascii.eqb d "+"%char || Ascii.eqb d "-"%char then
          match r with
          | d' :: _ => is_digit d'
          | [] => false
          end
        else is_digit d
      else false
  | _ => false
  end.

(** The integer part [0|[1-9][0-9]*] of a number, entered at its first digit. *)
Definition scan_nat (s : text) : parse Z :=
  match s with
  | c :: r =>
      if Ascii.eqb c "0"%char then
        if float_follows r then Unmodelled else Parsed 0 r
      else if is_digit c then
        let '(n, rest) := scan_digits s 0 in
        if float_follows rest then Unmodelled else Parsed n rest
      else Malformed
  | [] => Malformed
  end.

Definition starts_with (p s : text) : option text :=
  if decide (take (length p) s = p) then Some (drop (length p) s) else None.

Definition scan_number (s : text) : parse json :=
  match s with
  | c :: r =>
      if Ascii.eqb c "-"%char then
        match starts_with (t "Infinity") r with
        | Some _ => Unmodelled
        | None => parse_bind (scan_nat r) (fun n rest => Parsed (JInt (- n)) rest)
        end
      else parse_bind (scan_nat s) (fun n rest => Parsed (JInt n) rest)
  | [] => Malformed
  end.

Definition scan_constant (s : text) : parse json :=
  match starts_with (t "null") s with
  | Some rest => Parsed JNull rest
  | None =>
  match starts_with (t "true") s with
  | Some rest => Parsed (JBool true) rest
  | None =>
  match starts_with (t "false") s with
  | Some rest => Parsed (JBool false) rest
  | None =>
  match starts_with (t "NaN") s with
  | Some _ => Unmodelled
  | None =>
  match starts_with (t "Infinity") s with
  | Some _ => Unmodelled
  | None => Malformed
  end end end end end.

(** The scanner proper.  [fuel] bounds the number of nested calls; the
    callers give it more than the length of the text, which no scan uses up. *)
Fixpoint scan_once (fuel : nat) (s : text) {struct fuel} : parse json :=
  match fuel with
  | O => Unmodelled
  | S fuel' =>
      match s with
      | [] => Malformed
      | c :: r =>
          if Ascii.eqb c "034"%char then
            parse_bind (scan_string r) (fun s' rest => Parsed (JStr s') rest)
          else if Ascii.eqb c "{"%char then
            match skip_ws r with
            | c' :: r' =>
                if Ascii.eqb c' "}"%char then Parsed (JDict []) r'
                else parse_bind (scan_members fuel' (c' :: r'))
                       (fun l rest => Parsed (JDict (dict_of_pairs l)) rest)
            | [] => Malformed
            end
          else if Ascii.eqb c "["%char then
            match skip_ws r with
            | c' :: r' =>
                if Ascii.eqb c' "]"%char then Parsed (JList []) r'
                else parse_bind (scan_elements fuel' (c' :: r'))
                       (fun l rest => Parsed (JList l) rest)
            | [] => Malformed
            end
          else if Ascii.eqb c "-"%char || is_digit c then scan_number s
          else scan_constant s
      end
  end

(** The elements of a non-empty array up to its closing bracket, entered at
    the first character of an element. *)
with scan_elements (fuel : nat) (s : text) {struct fuel} : parse (list json) :=
  match fuel with
  | O => Unmodelled
  | S fuel' =>
      parse_bind (scan_once fuel' s) (fun v rest =>
        match skip_ws rest with
        | c :: r =>
            if Ascii.eqb c "]"%char then Parsed [v] r
            else if Ascii.eqb c ","%char then
              parse_bind (scan_elements fuel' (skip_ws r))
                (fun l rest' => Parsed (v :: l) rest')
            else Malformed
        | [] => Malformed
        end)
  end

(** The members of a non-empty object up to its closing brace, entered at
    the quote that opens a key. *)
with scan_members (fuel : nat) (s : text) {struct fuel}
    : parse (list (string * json)) :=
  match fuel with
  | O => Unmodelled
  | S fuel' =>
      match s with
      | c :: r =>
          if Ascii.eqb c "034"%char then
            parse_bind (scan_string r) (fun k rest =>
              match skip_ws rest with
              | c1 :: r1 =>
                  if Ascii.eqb c1 ":"%char then
                    parse_bind (scan_once fuel' (skip_ws r1)) (fun v rest' =>
                      match skip_ws rest' with
                      | c2 :: r2 =>
                          if Ascii.eqb c2 "}"%char then Parsed [(k, v)] r2
                          else if Ascii.eqb c2 ","%char then
                            parse_bind (scan_members fuel' (skip_ws r2))
                              (fun l rest'' => Parsed ((k, v) :: l) rest'')
                          else Malformed
                      | [] => Malformed
                      end)
                  else Malformed
              | [] => Malformed
              end)
          else Malformed
      | [] => Malformed
      end
  end.

(** What [json.loads] gives. *)
Inductive loaded : Type :=
| Loaded (j : json)
| DecodeError
| NotModelled.

(** [json.loads(s)]: one value between optional white space, nothing after. *)
Definition json_loads (s : text) : loaded :=
  match scan_once (S (length s)) (skip_ws s) with
  | Parsed j rest =>
      match skip_ws rest with
      | [] => Loaded j
      | _ :: _ => DecodeError
      end
  | Malformed => DecodeError
  | Unmodelled => NotModelled
  end.

(** ** The process: standard output, files, network, clock

    A run of the script is a function from the state of the process to an
    outcome and the state it leaves.  A call returns, exits through
    [sys.exit], or raises an exception nobody catches; the state reached is
    kept in all three cases, so what was printed or written before a failure
    stays printed or written. *)

Inductive exn : Type :=
| AttributeError
| TypeError
| KeyError
| FileNotFoundError
| JSONDecodeError
| RequestException.

Inductive outcome (A : Type) : Type :=
| Return (a : A)
| SysExit (status : Z)
| Raise (e : exn)
| OutsideModel.
Arguments Return {A} a.
Arguments SysExit {A} status.
Arguments Raise {A} e.
Arguments OutsideModel {A}.

(** What the script reads of a [requests.Response]. *)
Record response : Type := {
  status_code : Z;
  (** [response.json()], or [None] when the body is not JSON *)
  json_body : option json;
  (** the chunks [response.iter_content(chunk_size=8192)] yields *)
  iter_content : list bytes;
}.

Inductive reply : Type :=
| Answer (r : response)
| NoAnswer.

(** What the run does not decide: the answer to its n-th request (counted
    from 0) to a URL, the clock, and the name the system picks for a
    temporary file. *)
Record world : Type := {
  network : nat -> string -> reply;
  clock : Z;
  tmp_name : gmap string bytes -> string;
}.

Record process : Type := {
  stdout : list string;
  files : gmap string bytes;
  sent : nat;
}.

Definition M (A : Type) : Type := process -> outcome A * process.

#[export] Instance M_ret : MRet M := fun A a p => (Return a, p).

#[export] Instance M_bind : MBind M := fun A B k m p =>
  match m p with
  | (Return a, p') => k a p'
  | (SysExit st, p') => (SysExit st, p')
  | (Raise e, p') => (Raise e, p')
  | (OutsideModel, p') => (OutsideModel, p')
  end.

Definition raise {A} (e : exn) : M A := fun p => (Raise e, p).

Definition sys_exit {A} (status : Z) : M A := fun p => (SysExit status, p).

Definition print (line : string) : M unit := fun p =>
  (Return tt, {| stdout := stdout p ++ [line]; files := files p; sent := sent p |}).

Definition set_files (fs : gmap string bytes) (p : process) : process :=
  {| stdout := stdout p; files := fs; sent := sent p |}.

(** *** Operations on Python values *)

(** [d.get(k, default)]; only a dict has the method. *)
Definition py_get (d : json) (k : string) (default : json) : M json :=
  match d with
  | JDict items => mret (from_option id default (dict_get items k))
  | _ => raise AttributeError
  end.

(** [d[k]]. *)
Definition py_getitem (d : json) (k : string) : M json :=
  match d with
  | JDict items =>
      match dict_get items k with
      | Some v => mret v
      | None => raise KeyError
      end
  | _ => raise TypeError
  end.

(** [d[k] = v]. *)
Definition py_setitem (d : json) (k : string) (v : json) : M json :=
  match d with
  | JDict items => mret (JDict (dict_set items k v))
  | _ => raise TypeError
  end.

(** [d[k1][k2][k3] = v]: the inner dicts are the objects held by the outer
    ones, so the assignment shows in [d]. *)
Definition py_setitem3 (d : json) (k1 k2 k3 : string) (v : json) : M json :=
  d1 ← py_getitem d k1;
  d2 ← py_getitem d1 k2;
  d2' ← py_setitem d2 k3 v;
  d1' ← py_setitem d1 k2 d2';
  py_setitem d k1 d1'.

Fixpoint chars (s : string) : list json :=
  match s with
  | EmptyString => []
  | String c r => JStr (String c EmptyString) :: chars r
  end.

(** The values [for x in v] goes through. *)
Definition py_iter (v : json) : M (list json) :=
  match v with
  | JList l => mret l
  | JDict items => mret (map JStr (dict_keys items))
  | JStr s => mret (chars s)
  | _ => raise TypeError
  end.

(** *** Files *)

Definition os_path_exists (path : string) : M bool := fun p =>
  (Return (bool_decide (is_Some (files p !! path))), p).

Definition os_path_getsize (path : string) : M Z := fun p =>
  match files p !! path with
  | Some content => (Return (Z.of_nat (length content)), p)
  | None => (Raise FileNotFoundError, p)
  end.

(** [f.write(chunk)] on a file opened for writing: the chunk goes at the end. *)
Definition file_write (path : string) (chunk : bytes) : M unit := fun p =>
  (Return tt, set_files (alter (fun content => content ++ chunk) path (files p)) p).

(** [with tempfile.NamedTemporaryFile(delete=True) as tmp_file: body]: the
    file is there, empty, when the body starts and gone when the block is
    left, however it is left. *)
Definition named_temporary_file {A} (W : world) (body : string -> M A) : M A :=
  fun p =>
    let name := tmp_name W (files p) in
    let '(r, p') := body name (set_files (<[name := []]> (files p)) p) in
    (r, set_files (delete name (files p')) p').

(** UTF-8 text of a file.  Only ASCII files are given a text. *)
Definition decode_utf8 (content : bytes) : option text :=
  if forallb (fun x => byte_to_Z x <? 128) content
  then Some (map ascii_of_byte content)
  else None.

(** UTF-8 bytes of an ASCII text, which is all [json.dump] writes. *)
Definition encode_utf8 (s : text) : bytes := map byte_of_ascii s.

(** [with open(path, "r", encoding="utf-8") as f: json.load(f)]. *)
Definition json_load (path : string) : M json := fun p =>
  match files p !! path with
  | None => (Raise FileNotFoundError, p)
  | Some content =>
      match decode_utf8 content with
      | None => (OutsideModel, p)
      | Some s =>
          match json_loads s with
          | Loaded j => (Return j, p)
          | DecodeError => (Raise JSONDecodeError, p)
          | NotModelled => (OutsideModel, p)
          end
      end
  end.

(** [with open(path, "w", encoding="utf-8") as f: json.dump(obj, f, indent=4)]. *)
Definition json_dump (obj : json) (path : string) : M unit := fun p =>
  (Return tt, set_files (<[path := encode_utf8 (json_dumps obj)]> (files p)) p).

(** *** Network and clock *)

(** [requests.get(url, ...)].  A URL that is not a string has no scheme. *)
Definition requests_get (W : world) (url : json) : M response := fun p =>
  match url with
  | JStr u =>
      let p' := {| stdout := stdout p; files := files p; sent := S (sent p) |} in
      match network W (sent p) u with
      | Answer r => (Return r, p')
      | NoAnswer => (Raise RequestException, p')
      end
  | _ => (Raise RequestException, p)
  end.

Definition response_json (r : response) : M json :=
  match json_body r with
  | Some j => mret j
  | None => raise JSONDecodeError
  end.

(** [int(time.time())]. *)
Definition int_time_time (W : world) : M Z := mret (clock W).

(** ** The script *)

Definition GH_REPO_API_URL : string :=
  "https://api.github.com/repos/bleach86/mister_cloud_saves/releases/latest".

Definition SCRIPT_RAW_URL : string :=
  "https://raw.githubusercontent.com/bleach86/mister_cloud_saves/refs/heads/main/scripts/cloud_saves.sh".

Definition UPDATE_DB_FILE : string := "mister_cloud_saves_db.json".

(** The chunk size of [f.read(8192)]. *)
Definition chunk_size : nat := Z.to_nat 8192.

(** The loop [while chunk := f.read(size): hash_func.update(chunk)] over
    what is left of the file; an empty chunk ends it. *)
Equations? read_loop (size : nat) (hash_func : MD5.ctx) (rest : bytes) : MD5.ctx
  by wf (length rest) lt :=
  read_loop size hash_func rest with inspect (take size rest) := {
    | exist _ [] _ => hash_func
    | exist _ (x :: chunk) Hchunk =>
        read_loop size (MD5.update hash_func (x :: chunk)) (drop size rest)
  }.
Proof.
  destruct size as [|size]; [cbn in *; discriminate|].
  destruct rest as [|y rest]; [cbn in *; discriminate|].
  rewrite length_drop. cbn [length]. lia.
Qed.

(** [compute_file_hash(file_path, "md5")]; the script asks for no other
    algorithm. *)
Definition compute_file_hash (file_path : string) : M string := fun p =>
  match files p !! file_path with
  | None => (Raise FileNotFoundError, p)
  | Some content => (Return (MD5.ctx_hexdigest (read_loop chunk_size MD5.new content)), p)
  end.

(** The loop of [get_tag_and_latest_release_url] over the assets; [None]
    when it ends without returning. *)
Fixpoint find_client_asset (tag_name : json) (assets : list json)
    : M (option (json * json)) :=
  match assets with
  | [] => mret None
  | asset :: rest =>
      name ← py_get asset "name" JNull;
      if py_eq name (JStr "client.tar.xz") then
        url ← py_get asset "browser_download_url" JNull;
        mret (Some (url, tag_name))
      else find_client_asset tag_name rest
  end.

Definition get_tag_and_latest_release_url (W : world) : M (json * json) :=
  response ← requests_get W (JStr GH_REPO_API_URL);
  found ←
    (if status_code response =? 200 then
       data ← response_json response;
       tag_name ← py_get data "tag_name" (JStr "unknown");
       assets ← py_get data "assets" (JList []);
       assets ← py_iter assets;
       find_client_asset tag_name assets
     else mret None);
  match found with
  | Some result => mret result
  | None =>
      print "Error fetching latest release info";;
      sys_exit 1
  end.

Fixpoint write_chunks (path : string) (chunks : list bytes) : M unit :=
  match chunks with
  | [] => mret tt
  | chunk :: rest => file_write path chunk;; write_chunks path rest
  end.

Definition get_file_hash_and_size (W : world) (download_url : json) : M (Z * string) :=
  named_temporary_file W (fun tmp_file =>
    response ← requests_get W download_url;
    if status_code response =? 200 then
      write_chunks tmp_file (iter_content response);;
      size ← os_path_getsize tmp_file;
      file_hash ← compute_file_hash tmp_file;
      mret (size, file_hash)
    else
      print "Error downloading client file";;
      sys_exit 1).

Definition get_update_db_schema : json :=
  JDict
    [ ("v", JInt 1);
      ("db_id", JStr "mister_cloud_saves");
      ("timestamp", JInt 0);
      ("files",
        JDict
          [ ("Scripts/cloud_saves.sh",
              JDict
                [ ("size", JInt 0);
                  ("hash", JStr EmptyString);
                  ("url", JStr EmptyString);
                  ("tags", JList [JInt 1]) ]);
            ("cloud_saves/updates/client.tar.xz",
              JDict
                [ ("size", JInt 0);
                  ("hash", JStr EmptyString);
                  ("url", JStr EmptyString);
                  ("reboot", JBool true);
                  ("tags", JList [JInt 0]) ]) ]);
      ("folders",
        JDict
          [ ("Scripts", JDict []);
            ("cloud_saves", JDict []);
            ("cloud_saves/updates", JDict []) ]);
      ("tags_dictionary", JDict [("cloudsaves", JInt 0); ("scripts", JInt 1)]) ].

Definition generate_update_db (W : world) : M json :=
  let update_db := get_update_db_schema in
  '(client_download_url, _) ← get_tag_and_latest_release_url W;
  now ← int_time_time W;
  update_db ← py_setitem update_db "timestamp" (JInt now);
  '(script_size, script_hash) ← get_file_hash_and_size W (JStr SCRIPT_RAW_URL);
  update_db ← py_setitem3 update_db "files" "Scripts/cloud_saves.sh" "size" (JInt script_size);
  update_db ← py_setitem3 update_db "files" "Scripts/cloud_saves.sh" "hash" (JStr script_hash);
  update_db ← py_setitem3 update_db "files" "Scripts/cloud_saves.sh" "url" (JStr SCRIPT_RAW_URL);
  '(client_size, client_hash) ← get_file_hash_and_size W client_download_url;
  update_db ← py_setitem3 update_db "files" "cloud_saves/updates/client.tar.xz" "size" (JInt client_size);
  update_db ← py_setitem3 update_db "files" "cloud_saves/updates/client.tar.xz" "hash" (JStr client_hash);
  update_db ← py_setitem3 update_db "files" "cloud_saves/updates/client.tar.xz" "url" client_download_url;
  mret update_db.

(** The last three lines of [save_update_db_to_file_if_changed]. *)
Definition write_update_db (update_db : json) (file_path : string) : M unit :=
  json_dump update_db file_path;;
  print ("Update database saved to " +:+ file_path +:+ ".").

Definition save_update_db_to_file_if_changed (update_db : json) (file_path : string)
    : M unit :=
  found ← os_path_exists file_path;
  if (found : bool) then
    existing_db ← json_load file_path;
    if py_eq existing_db update_db then
      print "No changes detected in the update database."
    else write_update_db update_db file_path
  else write_update_db update_db file_path.

Definition main (W : world) : M unit :=
  update_db ← generate_update_db W;
  save_update_db_to_file_if_changed update_db UPDATE_DB_FILE.

(** ** Notions used in the statements *)

(** The tail a hash object holds is shorter than a block. *)
Definition ctx_ok (c : MD5.ctx) : Prop := (length (MD5.pending c) < 64)%nat.

(** The process once a request has been sent. *)
Definition after_request (p : process) : process :=
  {| stdout := stdout p; files := files p; sent := S (sent p) |}.

(** The process once a line has been printed. *)
Definition after_print (line : string) (p : process) : process :=
  {| stdout := stdout p ++ [line]; files := files p; sent := sent p |}.

(** *** Reading a document back *)

(** Value of a run of digits read after [acc]. *)
Definition value_of (ds : text) (acc : Z) : Z :=
  fold_left (fun a c => 10 * a + (code c - 48)) ds acc.

(** Where a number ends: at the end of the text, or before a character
    that is neither a digit nor the start of a fraction or an exponent. *)
Definition number_ends (rest : text) : Prop :=
  match rest with
  | [] => True
  | c :: _ => is_digit c = false /\ c <> "."%char /\ c <> "e"%char /\ c <> "E"%char
  end.

(** Nested calls the scanner makes to read a value back. *)
Fixpoint fuel_for (j : json) : nat :=
  match j with
  | JList l =>
      S ((fix go (l : list json) : nat :=
            match l with [] => O | x :: r => S (fuel_for x + go r) end) l)
  | JDict items =>
      S ((fix go (l : dict) : nat :=
            match l with [] => O | kv :: r => S (fuel_for (snd kv) + go r) end) items)
  | _ => 1%nat
  end.

Definition elements_fuel (l : list json) : nat :=
  fold_right (fun x n => S (fuel_for x + n)) O l.

Definition members_fuel (l : dict) : nat :=
  fold_right (fun kv n => S (fuel_for (snd kv) + n)) O l.

(** What follows a value in a document: nothing, a comma or a new line. *)
Definition value_ends (rest : text) : Prop :=
  match rest with
  | [] => True
  | c :: _ => c = ","%char \/ c = "010"%char
  end.

(** A character a value can start with. *)
Definition starts_value (c : ascii) : Prop :=
  is_ws c = false /\ c <> "]"%char /\ c <> "}"%char.

(** A value is read back when the scanner, given enough fuel and the text
    of the value at any level followed by what may follow a value, returns
    the value and what follows. *)
Definition reads_back (v : json) : Prop :=
  forall (level fuel : nat) (rest : text),
    (fuel_for v <= fuel)%nat ->
    value_ends rest ->
    scan_once fuel (dump level v ++ rest) = Parsed v rest.

(** A member of an object as [json.dump] writes it. *)
Definition dump_member (level : nat) (kv : string * json) : text :=
  encode_string (fst kv) ++ t ": " ++ dump level (snd kv).

Definition is_ascii (c : ascii) : Prop := code c < 128.

(** *** Documents *)

(** The value at the end of a path of keys. *)
Fixpoint lookup_path (j : json) (path : list string) : option json :=
  match path with
  | [] => Some j
  | k :: path' =>
      match j with
      | JDict items =>
          match dict_get items k with
          | Some v => lookup_path v path'
          | None => None
          end
      | _ => None
      end
  end.

(** The document of a run: the schema with the seven fields the run fills. *)
Definition manifest (now : Z) (script_size : Z) (script_hash : string)
    (client_size : Z) (client_hash : string) (client_url : json) : json :=
  JDict
    [ ("v", JInt 1);
      ("db_id", JStr "mister_cloud_saves");
      ("timestamp", JInt now);
      ("files",
        JDict
          [ ("Scripts/cloud_saves.sh",
              JDict
                [ ("size", JInt script_size);
                  ("hash", JStr script_hash);
                  ("url", JStr SCRIPT_RAW_URL);
                  ("tags", JList [JInt 1]) ]);
            ("cloud_saves/updates/client.tar.xz",
              JDict
                [ ("size", JInt client_size);
                  ("hash", JStr client_hash);
                  ("url", client_url);
                  ("reboot", JBool true);
                  ("tags", JList [JInt 0]) ]) ]);
      ("folders",
        JDict
          [ ("Scripts", JDict []);
            ("cloud_saves", JDict []);
            ("cloud_saves/updates", JDict []) ]);
      ("tags_dictionary", JDict [("cloudsaves", JInt 0); ("scripts", JInt 1)]) ].

(** [j] with the value at a path of keys replaced, where the path exists. *)
Fixpoint replace_path (j : json) (path : list string) (v : json) : json :=
  match path with
  | [] => v
  | k :: path' =>
      match j with
      | JDict items =>
          match dict_get items k with
          | Some sub => JDict (dict_set items k (replace_path sub path' v))
          | None => j
          end
      | _ => j
      end
  end.

(** A document with the seven fields of a run put back to the placeholders
    of the schema. *)
Definition with_placeholders (doc : json) : json :=
  let script := "Scripts/cloud_saves.sh" in
  let client := "cloud_saves/updates/client.tar.xz" in
  let doc := replace_path doc ["timestamp"] (JInt 0) in
  let doc := replace_path doc ["files"; script; "size"] (JInt 0) in
  let doc := replace_path doc ["files"; script; "hash"] (JStr EmptyString) in
  let doc := replace_path doc ["files"; script; "url"] (JStr EmptyString) in
  let doc := replace_path doc ["files"; client; "size"] (JInt 0) in
  let doc := replace_path doc ["files"; client; "hash"] (JStr EmptyString) in
  replace_path doc ["files"; client; "url"] (JStr EmptyString).

(** The members of [d] are found equal in [d']. *)
Definition members_eq (d d' : dict) : bool :=
  forallb (fun kv => match dict_get d' (fst kv) with
                     | Some v' => py_eq (snd kv) v'
                     | None => false
                     end) d.

(** *** The persistence gate *)

(** The process once [obj] has been written to [path] and the line that
    reports it printed. *)
Definition saved (obj : json) (path : string) (p : process) : process :=
  after_print ("Update database saved to " +:+ path +:+ ".")
    (set_files (<[path := encode_utf8 (json_dumps obj)]> (files p)) p).

(** The process once the line that reports no change has been printed. *)
Definition unchanged (p : process) : process :=
  after_print "No changes detected in the update database." p.

(** What [json.load] makes of the content of a file. *)
Definition file_json (content : bytes) : loaded :=
  match decode_utf8 content with
  | Some s => json_loads s
  | None => NotModelled
  end.

(** *** The release locator *)

(** An object of an asset list that is not the client archive. *)
Definition other_asset (asset : json) : Prop :=
  exists d, asset = JDict d /\ dict_get d "name" <> Some (JStr "client.tar.xz").

(** Release metadata whose asset list, if any, holds objects none of which
    is named [client.tar.xz]. *)
Definition without_client_asset (data : dict) : Prop :=
  dict_get data "assets" = None
  \/ exists assets,
       dict_get data "assets" = Some (JList assets) /\ Forall other_asset assets.

(** Two objects with the same fields apart from [tag_name]. *)
Definition same_but_tag (d1 d2 : dict) : Prop :=
  forall k, k <> "tag_name" -> dict_get d1 k = dict_get d2 k.

(** Two worlds that differ at most in the answer to the n-th request. *)
Definition same_but_answer (n : nat) (W1 W2 : world) : Prop :=
  clock W1 = clock W2
  /\ (forall fs, tmp_name W1 fs = tmp_name W2 fs)
  /\ (forall m u, m <> n -> network W1 m u = network W2 m u).

(** *** Sample worlds *)

Definition fresh_process : process := {| stdout := []; files := ∅; sent := 0 |}.

Definition hello_response : response :=
  {| status_code := 200; json_body := None;
     iter_content := [b "hello"; b " world"] |}.

(** A world that answers every request with [hello world] in two chunks. *)
Definition hello_world : world :=
  {| network := fun _ _ => Answer hello_response;
     clock := 0;
     tmp_name := fun _ => "/tmp/tmpfile" |}.

Definition release (tag : option string) (assets : list json) : dict :=
  match tag with
  | Some s => [("tag_name", JStr s); ("assets", JList assets)]
  | None => [("assets", JList assets)]
  end.

Definition asset (name url : string) : json :=
  JDict [("name", JStr name); ("browser_download_url", JStr url)].

Definition release_response (data : dict) : response :=
  {| status_code := 200; json_body := Some (JDict data); iter_content := [] |}.

(** A world whose first request is answered with the release metadata
    [data] and the following ones with [hello world]. *)
Definition release_world (data : dict) : world :=
  {| network := fun n _ =>
       match n with
       | O => Answer (release_response data)
       | S _ => Answer hello_response
       end;
     clock := 1700000000;
     tmp_name := fun _ => "/tmp/tmpfile" |}.

(** The document of a run at time 1700000000 that fetched [hello world]
    twice. *)
Definition sample_manifest : json :=
  manifest 1700000000 11 "5eb63bbbe01eeed093cb22bb8f5acdc3"
    11 "5eb63bbbe01eeed093cb22bb8f5acdc3" (JStr "https://example/client.tar.xz").

(** A process whose only file is the database, with a given content. *)
Definition process_with_db (content : bytes) : process :=
  {| stdout := []; files := {[ UPDATE_DB_FILE := content ]}; sent := 0 |}.

(** *** Releases with a client archive *)

(** [entry] is the first asset of the release metadata that is named
    [client.tar.xz]; the assets before it are objects with other names. *)
Definition client_asset (data entry : dict) : Prop :=
  exists before after,
    dict_get data "assets" = Some (JList (before ++ JDict entry :: after))
    /\ Forall other_asset before
    /\ dict_get entry "name" = Some (JStr "client.tar.xz").

(** A value [for asset in ...] cannot go through. *)
Definition not_iterable (v : json) : Prop :=
  match v with
  | JNull | JBool _ | JInt _ => True
  | _ => False
  end.

Definition not_found : response :=
  {| status_code := 404; json_body := None; iter_content := [] |}.

(** A world that answers every request with status 404. *)
Definition not_found_world : world :=
  {| network := fun _ _ => Answer not_found;
     clock := 0;
     tmp_name := fun _ => "/tmp/tmpfile" |}.

(** A world whose first request is answered with the release metadata
    [data] and the following ones with status 404. *)
Definition release_only_world (data : dict) : world :=
  {| network := fun n _ =>
       match n with
       | O => Answer (release_response data)
       | S _ => Answer not_found
       end;
     clock := 1700000000;
     tmp_name := fun _ => "/tmp/tmpfile" |}.

(** *** Indented text

    The text of a value laid out line by line: an empty list or object and
    every other value but a list or an object take one line; a list or an
    object with items takes a line for its opening bracket, the lines of
    its items pushed [width] spaces to the right, each item but the last
    followed by a comma, and a line for its closing bracket. *)

Definition indent_lines (width : nat) (lines : list text) : list text :=
  map (fun line => repeat " "%char width ++ line) lines.

(** A comma at the end of the last line. *)
Fixpoint with_comma (lines : list text) : list text :=
  match lines with
  | [] => []
  | [line] => [line ++ [","%char]]
  | line :: rest => line :: with_comma rest
  end.

(** The lines of items that follow one another, a comma after each but the
    last. *)
Fixpoint separated (items : list (list text)) : list text :=
  match items with
  | [] => []
  | [item] => item
  | item :: rest => with_comma item ++ separated rest
  end.

(** A key put before the first line of its value. *)
Definition prefixed (prefix : text) (lines : list text) : list text :=
  match lines with
  | [] => [prefix]
  | line :: rest => (prefix ++ line) :: rest
  end.

Fixpoint indented (width : nat) (j : json) {struct j} : list text :=
  match j with
  | JNull => [t "null"]
  | JBool true => [t "true"]
  | JBool false => [t "false"]
  | JInt n => [int_repr n]
  | JStr s => [encode_string s]
  | JList [] => [t "[]"]
  | JList l =>
      t "[" :: indent_lines width (separated (map (indented width) l)) ++ [t "]"]
  | JDict [] => [t "{}"]
  | JDict items =>
      t "{"
        :: indent_lines width
             (separated
                (map (fun kv =>
                        prefixed (encode_string (fst kv) ++ t ": ")
                          (indented width (snd kv)))
                   items))
        ++ [t "}"]
  end.

(** Lines with [sep] between them. *)
Definition glue (sep : text) (lines : list text) : text :=
  match lines with
  | [] => []
  | line :: rest => line ++ concat (map (fun x => sep ++ x) rest)
  end.

(** Lines with a new line between them. *)
Definition unlines (lines : list text) : text := glue ["010"%char] lines.

(** The bytes of a file given by its lines, an apostrophe standing for a
    double quote. *)
Definition file_lines (lines : list string) : bytes :=
  encode_utf8
    (unlines
       (map (fun line =>
               map (fun c => if Ascii.eqb c "'"%char then "034"%char else c) (t line))
          lines)).

(** The file of [sample_manifest], line by line. *)
Definition sample_manifest_lines : list string :=
  [ "{";
    "    'v': 1,";
    "    'db_id': 'mister_cloud_saves',";
    "    'timestamp': 1700000000,";
    "    'files': {";
    "        'Scripts/cloud_saves.sh': {";
    "            'size': 11,";
    "            'hash': '5eb63bbbe01eeed093cb22bb8f5acdc3',";
    "            'url': 'https://raw.githubusercontent.com/bleach86/mister_cloud_saves/refs/heads/main/scripts/cloud_saves.sh',";
    "            'tags': [";
    "                1";
    "            ]";
    "        },";
    "        'cloud_saves/updates/client.tar.xz': {";
    "            'size': 11,";
    "            'hash': '5eb63bbbe01eeed093cb22bb8f5acdc3',";
    "            'url': 'https://example/client.tar.xz',";
    "            'reboot': true,";
    "            'tags': [";
    "                0";
    "            ]";
    "        }";
    "    },";
    "    'folders': {";
    "        'Scripts': {},";
    "        'cloud_saves': {},";
    "        'cloud_saves/updates': {}";
    "    },";
    "    'tags_dictionary': {";
    "        'cloudsaves': 0,";
    "        'scripts': 1";
    "    }";
    "}" ].

(** * Theorems *)

(** ** The digest *)

Example md5_empty : MD5.hexdigest [] = "d41d8cd98f00b204e9800998ecf8427e".
Proof. vm_compute. reflexivity. Qed.

Example md5_a56 : MD5.hexdigest (repeat "a"%byte 56) = "3b0c8ac703f828b04c6c197006d17218".
Proof. vm_compute. reflexivity. Qed.

Example md5_a130 : MD5.hexdigest (repeat "a"%byte 130) = "e016e4ccc7fdaea56fc377600b58c4cb".
Proof. vm_compute. reflexivity. Qed.

Example md5_stream :
  MD5.ctx_hexdigest (MD5.update (MD5.update MD5.new (repeat "a"%byte 70)) (repeat "a"%byte 60))
  = "e016e4ccc7fdaea56fc377600b58c4cb".
Proof. vm_compute. reflexivity. Qed.

Section Blocks.

Import MD5.

Lemma blocks_aux_app (n m : nat) (l l' : bytes) :
  length l = (64 * n)%nat ->
  blocks_aux (n + m) (l ++ l') = blocks_aux n l ++ blocks_aux m l'.
Proof.
  revert l. induction n as [|n IH]; intros l Hl.
  - destruct l; [reflexivity | discriminate].
  - cbn [Nat.add blocks_aux app]. f_equal.
    + apply take_app_le. lia.
    + rewrite drop_app_le by lia. apply IH. rewrite length_drop. lia.
Qed.

Lemma blocks_app (l l' : bytes) :
  (length l mod 64 = 0)%nat -> blocks (l ++ l') = blocks l ++ blocks l'.
Proof.
  intros Hl. unfold blocks.
  assert (Hn : length l = (64 * (length l / 64))%nat).
  { pose proof (Nat.div_mod_eq (length l) 64). lia. }
  rewrite length_app.
  replace ((length l + length l') / 64)%nat
    with (length l / 64 + length l' / 64)%nat.
  - apply blocks_aux_app, Hn.
  - rewrite Hn at 2. rewrite (Nat.mul_comm 64), Nat.div_add_l by lia. reflexivity.
Qed.

Lemma blocks_short (l : bytes) : (length l < 64)%nat -> blocks l = [].
Proof. intros Hl. unfold blocks. rewrite Nat.div_small by lia. reflexivity. Qed.

(** A byte string is its complete blocks followed by a tail shorter than
    a block. *)
Lemma split_blocks (l : bytes) :
  let n := (length l / 64)%nat in
  l = take (64 * n) l ++ drop (64 * n) l
  /\ (length (take (64 * n) l) mod 64 = 0)%nat
  /\ (length (drop (64 * n) l) < 64)%nat
  /\ length (take (64 * n) l) = (64 * n)%nat.
Proof.
  intros n. subst n.
  pose proof (Nat.div_mod_eq (length l) 64) as Hdm.
  pose proof (Nat.mod_upper_bound (length l) 64) as Hub.
  assert (Hlen : length (take (64 * (length l / 64)) l) = (64 * (length l / 64))%nat)
    by (rewrite length_take; lia).
  repeat split.
  - symmetry. apply take_drop.
  - rewrite Hlen, Nat.mul_comm. apply Nat.Div0.mod_mul.
  - rewrite length_drop. lia.
  - exact Hlen.
Qed.

Lemma blocks_tail (l r : bytes) :
  blocks (l ++ r)
  = blocks l ++ blocks (drop (64 * (length l / 64)) l ++ r).
Proof.
  destruct (split_blocks l) as (Hl & Hmod & Hshort & Hlen).
  set (A := take (64 * (length l / 64)) l) in *.
  set (R := drop (64 * (length l / 64)) l) in *.
  transitivity (blocks (A ++ (R ++ r))).
  { f_equal. rewrite app_assoc. f_equal. exact Hl. }
  rewrite blocks_app by exact Hmod. f_equal.
  transitivity (blocks (A ++ R)); [|f_equal; symmetry; exact Hl].
  rewrite blocks_app by exact Hmod.
  rewrite (blocks_short R) by exact Hshort.
  symmetry. apply app_nil_r.
Qed.

Lemma pending_tail (l r : bytes) :
  let R := drop (64 * (length l / 64)) l in
  drop (64 * (length (R ++ r) / 64)) (R ++ r)
  = drop (64 * (length (l ++ r) / 64)) (l ++ r).
Proof.
  intros R. destruct (split_blocks l) as (Hl & Hmod & Hshort & Hlen).
  fold R in Hl, Hshort.
  set (A := take (64 * (length l / 64)) l) in *.
  assert (HlR : (l ++ r) = A ++ (R ++ r)) by (rewrite Hl at 1; apply eq_sym, app_assoc).
  rewrite HlR at 2.
  assert (Hdiv : (length (l ++ r) / 64 = length l / 64 + length (R ++ r) / 64)%nat).
  { rewrite HlR, length_app, Hlen.
    rewrite (Nat.mul_comm 64), Nat.div_add_l by lia. reflexivity. }
  rewrite Hdiv, (drop_app_ge A (R ++ r)) by lia. f_equal. lia.
Qed.

(** Two updates are one update with the concatenation. *)
Lemma update_app (c : ctx) (x y : bytes) :
  update (update c x) y = update c (x ++ y).
Proof.
  unfold update. cbn [chain pending count]. f_equal.
  - rewrite <- fold_left_app. f_equal.
    rewrite (app_assoc (pending c) x y). symmetry. apply blocks_tail.
  - rewrite (app_assoc (pending c) x y). apply pending_tail.
  - rewrite length_app. lia.
Qed.

Lemma new_ok : ctx_ok new.
Proof. unfold ctx_ok. simpl. lia. Qed.

Lemma update_ok (c : ctx) (x : bytes) : ctx_ok (update c x).
Proof.
  unfold ctx_ok, update. cbn [pending].
  apply (split_blocks (pending c ++ x)).
Qed.

Lemma update_nil (c : ctx) : ctx_ok c -> update c [] = c.
Proof.
  intros Hc. unfold ctx_ok in Hc. destruct c as [h p n]. unfold update.
  cbn [chain pending count] in *. rewrite app_nil_r.
  rewrite blocks_short by exact Hc.
  rewrite Nat.div_small by lia. cbn [fold_left length Nat.mul drop].
  f_equal. lia.
Qed.

(** Feeding the chunks one by one is feeding their concatenation. *)
Lemma update_chunks (chunks : list bytes) (c : ctx) :
  ctx_ok c -> fold_left update chunks c = update c (concat chunks).
Proof.
  revert c. induction chunks as [|x chunks IH]; intros c Hc; cbn [fold_left concat].
  - symmetry. apply update_nil, Hc.
  - rewrite IH by apply update_ok. apply update_app.
Qed.

(** The digest of a hash object fed a message is the digest of the
    message. *)
Lemma update_hexdigest (msg : bytes) :
  ctx_hexdigest (update new msg) = hexdigest msg.
Proof.
  unfold ctx_hexdigest, hexdigest, digest, update.
  cbn [chain pending count new app Nat.add]. do 2 f_equal.
  rewrite <- fold_left_app. f_equal. symmetry. apply blocks_tail.
Qed.

End Blocks.

(** The reading loop feeds the hash object the whole of what is left. *)
Lemma read_loop_update (size : nat) (rest : bytes) (hash_func : MD5.ctx) :
  (0 < size)%nat ->
  ctx_ok hash_func -> read_loop size hash_func rest = MD5.update hash_func rest.
Proof.
  intros Hsize.
  funelim (read_loop size hash_func rest); intros Hok.
  - destruct (take_nil_inv _ _ e) as [-> | ->]; [lia|].
    symmetry. apply update_nil, Hok.
  - rewrite H by (exact Hsize || apply update_ok). rewrite update_app.
    f_equal. rewrite <- Hchunk. apply take_drop.
Qed.

Lemma chunk_size_pos : (0 < chunk_size)%nat.
Proof.
  unfold chunk_size. apply Nat2Z.inj_lt.
  rewrite Z2Nat.id by (vm_compute; discriminate). reflexivity.
Qed.

(** ** Running the process *)

Lemma bind_run {A B} (m : M A) (k : A -> M B) (p : process) :
  (m ≫= k) p =
  match m p with
  | (Return a, p') => k a p'
  | (SysExit st, p') => (SysExit st, p')
  | (Raise e, p') => (Raise e, p')
  | (OutsideModel, p') => (OutsideModel, p')
  end.
Proof. reflexivity. Qed.

Lemma set_files_id (p : process) : set_files (files p) p = p.
Proof. destruct p. reflexivity. Qed.

Lemma set_files_twice (fs fs' : gmap string bytes) (p : process) :
  set_files fs (set_files fs' p) = set_files fs p.
Proof. reflexivity. Qed.

Lemma ret_bind {A B} (a : A) (k : A -> M B) (p : process) :
  (mret a ≫= k) p = k a p.
Proof. reflexivity. Qed.

(** ** The content fetcher *)

Lemma write_chunks_spec (name : string) (chunks : list bytes) :
  forall (p : process) (c0 : bytes),
    files p !! name = Some c0 ->
    write_chunks name chunks p
    = (Return tt, set_files (<[name := c0 ++ concat chunks]> (files p)) p).
Proof.
  induction chunks as [|x chunks IH]; intros p c0 Hc0; cbn [write_chunks concat].
  - rewrite app_nil_r, insert_id by exact Hc0. rewrite set_files_id. reflexivity.
  - rewrite bind_run. cbn [file_write].
    rewrite (IH _ (c0 ++ x)).
    + cbn [files set_files]. rewrite set_files_twice. do 2 f_equal.
      rewrite app_assoc. apply map_eq. intros k.
      destruct (decide (name = k)) as [->|Hne].
      * rewrite !lookup_insert_eq. reflexivity.
      * rewrite !lookup_insert_ne by exact Hne. apply lookup_alter_ne, Hne.
    + cbn [files set_files]. rewrite lookup_alter_eq, Hc0. reflexivity.
Qed.

(** Hashing a file in chunks of 8192 bytes gives the digest of its content. *)
Lemma compute_file_hash_spec (file_path : string) (p : process) (content : bytes) :
  files p !! file_path = Some content ->
  compute_file_hash file_path p = (Return (MD5.hexdigest content), p).
Proof.
  intros Hc. unfold compute_file_hash. rewrite Hc.
  rewrite read_loop_update by (apply chunk_size_pos || apply new_ok).
  rewrite update_hexdigest. reflexivity.
Qed.

(** A fetch answered with status 200 returns the length and the digest of
    the bytes received, and leaves no temporary file. *)
Lemma get_file_hash_and_size_ok (W : world) (u : string) (p : process) (r : response) :
  network W (sent p) u = Answer r ->
  status_code r = 200 ->
  let body := concat (iter_content r) in
  get_file_hash_and_size W (JStr u) p
  = (Return (Z.of_nat (length body), MD5.hexdigest body),
     set_files (delete (tmp_name W (files p)) (files p)) (after_request p)).
Proof.
  intros Hnet Hst body. unfold get_file_hash_and_size, named_temporary_file.
  set (name := tmp_name W (files p)).
  rewrite bind_run. cbn [requests_get files set_files stdout sent].
  rewrite Hnet, Hst. cbn [Z.eqb Pos.eqb].
  rewrite bind_run.
  rewrite (write_chunks_spec name (iter_content r) _ [])
    by (cbn [files]; apply lookup_insert_eq).
  cbn [app files]. fold body.
  rewrite bind_run. unfold os_path_getsize. cbn [files set_files].
  rewrite lookup_insert_eq.
  rewrite bind_run.
  rewrite (compute_file_hash_spec name _ body)
    by (cbn [files]; apply lookup_insert_eq).
  cbn [mret M_ret files set_files stdout sent].
  unfold after_request, set_files. cbn [files stdout sent]. do 2 f_equal.
  rewrite insert_insert_eq, delete_insert_eq. reflexivity.
Qed.

(** C4: a fetch answered with status 200 whose body is the 11 bytes
    [hello world], however the transfer cuts it into chunks, returns size 11
    and the MD5 hex digest 5eb63bbbe01eeed093cb22bb8f5acdc3. *)
Theorem hello_world_hash_and_size (W : world) (u : string) (p : process) (r : response) :
  network W (sent p) u = Answer r ->
  status_code r = 200 ->
  concat (iter_content r) = b "hello world" ->
  fst (get_file_hash_and_size W (JStr u) p)
  = Return (11, "5eb63bbbe01eeed093cb22bb8f5acdc3").
Proof.
  intros Hnet Hst Hbody.
  rewrite (get_file_hash_and_size_ok W u p r Hnet Hst). cbn [fst].
  rewrite Hbody. vm_compute. reflexivity.
Qed.

Lemma hello_world_hash_and_size_witness :
  fst (get_file_hash_and_size hello_world (JStr SCRIPT_RAW_URL) fresh_process)
  = Return (11, "5eb63bbbe01eeed093cb22bb8f5acdc3").
Proof.
  apply (hello_world_hash_and_size hello_world SCRIPT_RAW_URL fresh_process
           hello_response);
    reflexivity.
Defined.

(** C5: the size and hash a fetch returns depend on the bytes received
    only: they are the length and the one-shot MD5 digest of the whole body,
    whatever the chunks of the transfer and with the file read back 8192
    bytes at a time; and feeding a hash object any chunk decomposition of
    the body gives that same digest. *)
Theorem fetch_independent_of_chunking
    (W : world) (u : string) (p : process) (r : response) :
  network W (sent p) u = Answer r ->
  status_code r = 200 ->
  let body := concat (iter_content r) in
  fst (get_file_hash_and_size W (JStr u) p)
  = Return (Z.of_nat (length body), MD5.hexdigest body)
  /\ (forall (file_path : string) (q : process),
        files q !! file_path = Some body ->
        fst (compute_file_hash file_path q) = Return (MD5.hexdigest body))
  /\ (forall chunks : list bytes,
        concat chunks = body ->
        Z.of_nat (length (concat chunks)) = Z.of_nat (length body)
        /\ MD5.ctx_hexdigest (fold_left MD5.update chunks MD5.new)
           = MD5.hexdigest body).
Proof.
  intros Hnet Hst body. split; [|split].
  - rewrite (get_file_hash_and_size_ok W u p r Hnet Hst). reflexivity.
  - intros file_path q Hq.
    rewrite (compute_file_hash_spec file_path q body Hq). reflexivity.
  - intros chunks Hchunks. split.
    + rewrite Hchunks. reflexivity.
    + rewrite update_chunks by apply new_ok. rewrite Hchunks.
      apply update_hexdigest.
Qed.

Lemma fetch_independent_of_chunking_witness :
  let body := b "hello world" in
  fst (get_file_hash_and_size hello_world (JStr SCRIPT_RAW_URL) fresh_process)
  = Return (Z.of_nat (length body), MD5.hexdigest body)
  /\ MD5.ctx_hexdigest
       (fold_left MD5.update [b "he"; []; b "llo wor"; b "ld"] MD5.new)
     = MD5.hexdigest body.
Proof.
  pose proof (fetch_independent_of_chunking hello_world SCRIPT_RAW_URL fresh_process
                hello_response eq_refl eq_refl) as (Hfetch & _ & Hchunks).
  split.
  - exact Hfetch.
  - exact (proj2 (Hchunks [b "he"; []; b "llo wor"; b "ld"] eq_refl)).
Defined.

(** What a fetch does, case by case. *)
Lemma get_file_hash_and_size_run (W : world) (url : json) (p : process) :
  get_file_hash_and_size W url p
  = let cleaned q := set_files (delete (tmp_name W (files p)) (files p)) q in
    match url with
    | JStr u =>
        match network W (sent p) u with
        | Answer r =>
            if status_code r =? 200 then
              (Return (Z.of_nat (length (concat (iter_content r))),
                       MD5.hexdigest (concat (iter_content r))),
               cleaned (after_request p))
            else
              (SysExit 1,
               cleaned (after_print "Error downloading client file" (after_request p)))
        | NoAnswer => (Raise RequestException, cleaned (after_request p))
        end
    | _ => (Raise RequestException, cleaned p)
    end.
Proof.
  assert (Hclean : forall x, delete (tmp_name W (files p))
                     (<[tmp_name W (files p) := x]> (files p))
                   = delete (tmp_name W (files p)) (files p))
    by (intros x; apply delete_insert_eq).
  destruct url as [| | |u| |];
    try (unfold get_file_hash_and_size, named_temporary_file;
         rewrite bind_run; cbn [requests_get files set_files];
         rewrite Hclean; reflexivity).
  cbn zeta. destruct (network W (sent p) u) as [r|] eqn:Hnet.
  - destruct (status_code r =? 200) eqn:Hst.
    + apply Z.eqb_eq in Hst. apply (get_file_hash_and_size_ok W u p r Hnet Hst).
    + unfold get_file_hash_and_size, named_temporary_file.
      rewrite bind_run. cbn [requests_get files set_files stdout sent].
      rewrite Hnet, Hst. rewrite bind_run.
      cbn [print sys_exit files set_files stdout sent].
      rewrite Hclean. reflexivity.
  - unfold get_file_hash_and_size, named_temporary_file.
    rewrite bind_run. cbn [requests_get files set_files stdout sent].
    rewrite Hnet. cbn [files set_files]. rewrite Hclean. reflexivity.
Qed.

(** A fetch looks at the world through the name of its temporary file and
    the answer to the request it sends. *)
Lemma get_file_hash_and_size_ext (W1 W2 : world) (url : json) (p : process) :
  (forall fs, tmp_name W1 fs = tmp_name W2 fs) ->
  (forall u, network W1 (sent p) u = network W2 (sent p) u) ->
  get_file_hash_and_size W1 url p = get_file_hash_and_size W2 url p.
Proof.
  intros Htmp Hnet. rewrite !get_file_hash_and_size_run. cbn zeta.
  rewrite Htmp. destruct url; try reflexivity. rewrite Hnet. reflexivity.
Qed.

Lemma get_file_hash_and_size_sent (W : world) (url : json) (p : process) :
  (sent p <= sent (snd (get_file_hash_and_size W url p)))%nat.
Proof.
  rewrite get_file_hash_and_size_run. cbn zeta.
  destruct url as [| | |u| |]; cbn; try lia.
  destruct (network W (sent p) u) as [r|]; [destruct (status_code r =? 200)|];
    cbn; lia.
Qed.

(** ** The release locator *)

Lemma py_eq_str (x : json) (s : string) : py_eq x (JStr s) = true <-> x = JStr s.
Proof.
  destruct x; cbn [py_eq]; split; intros H; try discriminate; try congruence.
  - apply String.eqb_eq in H. congruence.
  - injection H as ->. apply String.eqb_refl.
Qed.

Lemma find_client_asset_none (tag_name : json) (assets : list json) (p : process) :
  Forall other_asset assets ->
  find_client_asset tag_name assets p = (Return None, p).
Proof.
  induction 1 as [|asset assets (d & -> & Hname) _ IH]; [reflexivity|].
  cbn [find_client_asset py_get]. rewrite ret_bind.
  destruct (py_eq _ _) eqn:E; [|exact IH].
  apply py_eq_str in E. exfalso. apply Hname.
  destruct (dict_get d "name"); cbn in E; congruence.
Qed.

(** The tag the loop returns is the one it was given, and nothing else of
    its result depends on it. *)
Lemma find_client_asset_tag (tag tag' : json) (assets : list json) (p : process) :
  find_client_asset tag' assets p
  = match find_client_asset tag assets p with
    | (Return (Some (url, _)), p') => (Return (Some (url, tag')), p')
    | other => other
    end.
Proof.
  revert p. induction assets as [|asset assets IH]; intros p; [reflexivity|].
  cbn [find_client_asset]. rewrite !bind_run.
  destruct (py_get asset "name" JNull p) as [[name| | |] p1]; try reflexivity.
  destruct (py_eq name _); [|apply IH].
  rewrite !bind_run.
  destruct (py_get asset "browser_download_url" JNull p1) as [[url| | |] p2]; reflexivity.
Qed.

(** The loop leaves the process as it found it, and a pair it returns
    carries the tag it was given. *)
Lemma find_client_asset_pure (tag : json) (assets : list json) (p : process) :
  snd (find_client_asset tag assets p) = p
  /\ forall url tag' p',
       find_client_asset tag assets p = (Return (Some (url, tag')), p') -> tag' = tag.
Proof.
  induction assets as [|asset assets IH]; [split; [reflexivity | discriminate]|].
  cbn [find_client_asset]. rewrite bind_run.
  destruct asset as [| | | | |d]; cbn [py_get raise mret M_ret];
    try (split; [reflexivity | discriminate]).
  destruct (py_eq _ _); [|exact IH].
  rewrite ret_bind. cbn [mret M_ret]. split; [reflexivity|].
  intros url tag' p' [= _ <- _]. reflexivity.
Qed.

Lemma py_iter_pure (v : json) (p : process) : snd (py_iter v p) = p.
Proof. destruct v; reflexivity. Qed.

(** The locator once the API has answered with status 200 and an object. *)
Lemma locator_run (W : world) (p : process) (r : response) (data : dict) :
  network W (sent p) GH_REPO_API_URL = Answer r ->
  status_code r = 200 ->
  json_body r = Some (JDict data) ->
  get_tag_and_latest_release_url W p
  = match
      (assets ← py_iter (default (JList []) (dict_get data "assets"));
       find_client_asset (default (JStr "unknown") (dict_get data "tag_name"))
         assets) (after_request p)
    with
    | (Return (Some result), p') => (Return result, p')
    | (Return None, p') =>
        (SysExit 1, after_print "Error fetching latest release info" p')
    | (SysExit st, p') => (SysExit st, p')
    | (Raise e, p') => (Raise e, p')
    | (OutsideModel, p') => (OutsideModel, p')
    end.
Proof.
  intros Hnet Hst Hbody. unfold get_tag_and_latest_release_url.
  rewrite bind_run. cbn [requests_get]. rewrite Hnet, Hst. cbn [Z.eqb Pos.eqb].
  fold (after_request p). rewrite bind_run.
  unfold response_json. rewrite Hbody.
  rewrite (bind_run (mret (JDict data))). cbn [mret M_ret].
  cbn [py_get]. rewrite !ret_bind.
  match goal with |- context [?m (after_request p)] =>
    destruct (m (after_request p)) as [[[result|]| | |] p'] end; reflexivity.
Qed.

(** C1, as the code has it: when the API answers with status 200 and
    release metadata whose asset list holds no object named
    [client.tar.xz], the locator returns nothing: it prints
    [Error fetching latest release info] and exits with status 1. *)
Theorem locator_exits_without_client_asset
    (W : world) (p : process) (r : response) (data : dict) :
  network W (sent p) GH_REPO_API_URL = Answer r ->
  status_code r = 200 ->
  json_body r = Some (JDict data) ->
  without_client_asset data ->
  get_tag_and_latest_release_url W p
  = (SysExit 1, after_print "Error fetching latest release info" (after_request p)).
Proof.
  intros Hnet Hst Hbody Hdata.
  rewrite (locator_run W p r data Hnet Hst Hbody).
  destruct Hdata as [Hnone | (assets & Hassets & Hother)].
  - rewrite Hnone. reflexivity.
  - rewrite Hassets. cbn [from_option id py_iter]. rewrite ret_bind.
    rewrite find_client_asset_none by exact Hother. reflexivity.
Qed.

Lemma other_asset_notes : other_asset (asset "notes.txt" "https://example/notes.txt").
Proof. eexists. split; [reflexivity|]. cbn. discriminate. Qed.

Lemma locator_exits_without_client_asset_witness :
  let data := release (Some "v1.2.3") [asset "notes.txt" "https://example/notes.txt"] in
  get_tag_and_latest_release_url (release_world data) fresh_process
  = (SysExit 1,
     after_print "Error fetching latest release info" (after_request fresh_process)).
Proof.
  intros data.
  apply (locator_exits_without_client_asset (release_world data) fresh_process
           (release_response data) data); try reflexivity.
  right. eexists. split; [reflexivity|].
  constructor; [apply other_asset_notes | constructor].
Defined.

(** C1, as stated, fails: for a release with one asset that is not the
    client archive the locator returns no pair at all, in particular not a
    pair of [None], and it is not silent. *)
Lemma locator_returns_none_counterexample :
  let data := release (Some "v1.2.3") [asset "notes.txt" "https://example/notes.txt"] in
  let run := get_tag_and_latest_release_url (release_world data) fresh_process in
  network (release_world data) (sent fresh_process) GH_REPO_API_URL
    = Answer (release_response data)
  /\ status_code (release_response data) = 200
  /\ without_client_asset data
  /\ ~ (fst run = Return (JNull, JNull) /\ stdout (snd run) = stdout fresh_process)
  /\ (forall result, fst run <> Return result)
  /\ fst run = SysExit 1
  /\ stdout (snd run) = ["Error fetching latest release info"].
Proof.
  cbn zeta. split; [reflexivity|]. split; [reflexivity|]. split.
  { right. eexists. split; [reflexivity|].
    constructor; [apply other_asset_notes | constructor]. }
  split; [intros [H _]; vm_compute in H; discriminate H|].
  split; [intros result H; vm_compute in H; discriminate H|].
  split; reflexivity.
Qed.

(** ** The manifest builder *)

(** A run of [generate_update_db] is the locator and the two fetches; when
    the three return, the result is the schema filled with what they gave. *)
Lemma generate_update_db_run (W : world) (p : process) :
  generate_update_db W p =
  match get_tag_and_latest_release_url W p with
  | (Return (client_url, _), p1) =>
      match get_file_hash_and_size W (JStr SCRIPT_RAW_URL) p1 with
      | (Return (script_size, script_hash), p2) =>
          match get_file_hash_and_size W client_url p2 with
          | (Return (client_size, client_hash), p3) =>
              (Return (manifest (clock W) script_size script_hash
                         client_size client_hash client_url), p3)
          | (SysExit st, p3) => (SysExit st, p3)
          | (Raise e, p3) => (Raise e, p3)
          | (OutsideModel, p3) => (OutsideModel, p3)
          end
      | (SysExit st, p2) => (SysExit st, p2)
      | (Raise e, p2) => (Raise e, p2)
      | (OutsideModel, p2) => (OutsideModel, p2)
      end
  | (SysExit st, p1) => (SysExit st, p1)
  | (Raise e, p1) => (Raise e, p1)
  | (OutsideModel, p1) => (OutsideModel, p1)
  end.
Proof.
  unfold generate_update_db, int_time_time, py_setitem3, mbind, M_bind, mret, M_ret.
  destruct (get_tag_and_latest_release_url W p) as [[[url tag]| | |] p1]; try reflexivity.
  cbn -[get_file_hash_and_size SCRIPT_RAW_URL].
  destruct (get_file_hash_and_size W (JStr SCRIPT_RAW_URL) p1) as [[[ss sh]| | |] p2];
    try reflexivity.
  cbn -[get_file_hash_and_size SCRIPT_RAW_URL].
  destruct (get_file_hash_and_size W url p2) as [[[cs ch]| | |] p3]; try reflexivity.
Qed.

(** Every document a run returns is a [manifest]; its client URL is a
    string, the one the archive was fetched from. *)
Lemma generate_update_db_returns (W : world) (p p' : process) (doc : json) :
  generate_update_db W p = (Return doc, p') ->
  exists script_size script_hash client_size client_hash client_url,
    doc = manifest (clock W) script_size script_hash client_size client_hash
            (JStr client_url).
Proof.
  rewrite generate_update_db_run.
  destruct (get_tag_and_latest_release_url W p) as [[[url tag]| | |] p1];
    try discriminate.
  destruct (get_file_hash_and_size W (JStr SCRIPT_RAW_URL) p1) as [[[ss sh]| | |] p2];
    try discriminate.
  destruct (get_file_hash_and_size W url p2) as [[[cs ch]| | |] p3] eqn:Hfetch;
    try discriminate.
  intros [= <- _].
  rewrite get_file_hash_and_size_run in Hfetch. cbn zeta in Hfetch.
  destruct url as [| | |u| |]; try discriminate Hfetch.
  exists ss, sh, cs, ch, u. reflexivity.
Qed.

(** C8: in every document [generate_update_db] returns, the files mapping
    has exactly the two keys [Scripts/cloud_saves.sh] and
    [cloud_saves/updates/client.tar.xz], and every tag id in the tags list
    of a file entry is a value of the tag dictionary. *)
Theorem manifest_tags_and_paths (W : world) (p p' : process) (doc : json) :
  generate_update_db W p = (Return doc, p') ->
  exists (entries tags_dictionary : dict),
    lookup_path doc ["files"] = Some (JDict entries)
    /\ lookup_path doc ["tags_dictionary"] = Some (JDict tags_dictionary)
    /\ dict_keys entries
       = ["Scripts/cloud_saves.sh"; "cloud_saves/updates/client.tar.xz"]
    /\ forall path entry,
         In (path, entry) entries ->
         exists tags,
           lookup_path entry ["tags"] = Some (JList tags)
           /\ forall tag, In tag tags -> In tag (map snd tags_dictionary).
Proof.
  intros Hrun.
  destruct (generate_update_db_returns W p p' doc Hrun)
    as (ss & sh & cs & ch & u & ->).
  eexists _, _. split; [reflexivity|]. split; [reflexivity|]. split; [reflexivity|].
  intros path entry [[= <- <-] | [[= <- <-] | []]];
    (eexists; split; [reflexivity|]);
    intros tag [<- | []]; cbn; auto.
Qed.

(** C9: every document [generate_update_db] returns has the version, the
    database id, the folders, the tag dictionary, the tags of both entries
    and the reboot flag of the client entry of the schema; putting the
    timestamp and the size, hash and url of the two entries back to their
    placeholders gives the schema itself. *)
Theorem manifest_static_fields (W : world) (p p' : process) (doc : json) :
  generate_update_db W p = (Return doc, p') ->
  let script := "Scripts/cloud_saves.sh" in
  let client := "cloud_saves/updates/client.tar.xz" in
  (forall path,
     In path [ ["v"]; ["db_id"]; ["folders"]; ["tags_dictionary"];
               ["files"; script; "tags"]; ["files"; client; "tags"];
               ["files"; client; "reboot"] ] ->
     lookup_path doc path = lookup_path get_update_db_schema path
     /\ lookup_path doc path <> None)
  /\ with_placeholders doc = get_update_db_schema.
Proof.
  intros Hrun script client.
  destruct (generate_update_db_returns W p p' doc Hrun)
    as (ss & sh & cs & ch & u & ->).
  split; [|reflexivity].
  intros path Hpath. cbn [In] in Hpath.
  repeat (destruct Hpath as [<- | Hpath]; [split; [reflexivity | discriminate]|]).
  destruct Hpath.
Qed.

(** C10: two runs whose worlds differ only in the answer of the release
    API, both with status 200 and with release metadata that differ only in
    [tag_name], do the same and return the same document; the tag the
    locator returns is the [tag_name] of the metadata, or the string
    [unknown] when there is none. *)
Theorem manifest_independent_of_tag
    (W1 W2 : world) (p : process) (r1 r2 : response) (d1 d2 : dict) :
  same_but_answer (sent p) W1 W2 ->
  network W1 (sent p) GH_REPO_API_URL = Answer r1 ->
  network W2 (sent p) GH_REPO_API_URL = Answer r2 ->
  status_code r1 = 200 ->
  status_code r2 = 200 ->
  json_body r1 = Some (JDict d1) ->
  json_body r2 = Some (JDict d2) ->
  same_but_tag d1 d2 ->
  generate_update_db W1 p = generate_update_db W2 p
  /\ (forall url tag p',
        get_tag_and_latest_release_url W1 p = (Return (url, tag), p') ->
        tag = default (JStr "unknown") (dict_get d1 "tag_name")
        /\ get_tag_and_latest_release_url W2 p
           = (Return (url, default (JStr "unknown") (dict_get d2 "tag_name")), p')).
Proof.
  intros (Hclock & Htmp & Hnet) Hnet1 Hnet2 Hst1 Hst2 Hbody1 Hbody2 Hsame.
  assert (Hassets : dict_get d1 "assets" = dict_get d2 "assets")
    by (apply Hsame; discriminate).
  set (tag1 := default (JStr "unknown") (dict_get d1 "tag_name")).
  set (tag2 := default (JStr "unknown") (dict_get d2 "tag_name")).
  pose proof (locator_run W1 p r1 d1 Hnet1 Hst1 Hbody1) as Hloc1.
  pose proof (locator_run W2 p r2 d2 Hnet2 Hst2 Hbody2) as Hloc2.
  fold tag1 in Hloc1. fold tag2 in Hloc2.
  rewrite Hassets in Hloc1. rewrite bind_run in Hloc1, Hloc2.
  pose proof (py_iter_pure (default (JList []) (dict_get d2 "assets")) (after_request p))
    as Hiter.
  destruct (py_iter _ (after_request p)) as [[assets| | |] q].
  2-4: (split; [rewrite !generate_update_db_run, Hloc1, Hloc2; reflexivity|];
        intros url tag p' H; rewrite Hloc1 in H; discriminate H).
  cbn [snd] in Hiter. subst q.
  rewrite (find_client_asset_tag tag2 tag1) in Hloc1.
  destruct (find_client_asset_pure tag2 assets (after_request p)) as [Hpure Htag].
  destruct (find_client_asset tag2 assets (after_request p))
    as [[[[url tag]|]| | |] q] eqn:Hfind.
  2-5: (split; [rewrite !generate_update_db_run, Hloc1, Hloc2; reflexivity|];
        intros url tag p' H; rewrite Hloc1 in H; discriminate H).
  cbn [snd] in Hpure. subst q.
  rewrite (Htag url tag _ eq_refl) in Hloc2.
  split.
  - rewrite !generate_update_db_run, Hloc1, Hloc2, Hclock.
    assert (Hfetch1 : get_file_hash_and_size W1 (JStr SCRIPT_RAW_URL) (after_request p)
                      = get_file_hash_and_size W2 (JStr SCRIPT_RAW_URL) (after_request p)).
    { apply get_file_hash_and_size_ext; [exact Htmp|].
      intros u. apply Hnet. cbn. lia. }
    rewrite Hfetch1.
    pose proof (get_file_hash_and_size_sent W2 (JStr SCRIPT_RAW_URL) (after_request p))
      as Hsent.
    destruct (get_file_hash_and_size W2 (JStr SCRIPT_RAW_URL) (after_request p))
      as [[[ss sh]| | |] p2]; try reflexivity.
    cbn [snd after_request sent] in Hsent.
    rewrite (get_file_hash_and_size_ext W1 W2 url p2 Htmp)
      by (intros u; apply Hnet; lia).
    reflexivity.
  - intros url' tag' p' H. rewrite Hloc1 in H. injection H as <- <- <-.
    split; [reflexivity | exact Hloc2].
Qed.

Lemma same_but_tag_release (tag : string) (assets : list json) :
  same_but_tag (release (Some tag) assets) (release None assets).
Proof.
  intros k Hk. cbn [release dict_get].
  destruct (String.eqb_spec "tag_name" k) as [E|_]; [congruence | reflexivity].
Qed.

Lemma manifest_independent_of_tag_witness :
  let assets := [asset "client.tar.xz" "https://example/client.tar.xz"] in
  let W1 := release_world (release (Some "v1.2.3") assets) in
  let W2 := release_world (release None assets) in
  generate_update_db W1 fresh_process = generate_update_db W2 fresh_process
  /\ fst (get_tag_and_latest_release_url W1 fresh_process)
     = Return (JStr "https://example/client.tar.xz", JStr "v1.2.3")
  /\ fst (get_tag_and_latest_release_url W2 fresh_process)
     = Return (JStr "https://example/client.tar.xz", JStr "unknown").
Proof.
  intros assets W1 W2.
  assert (Hworlds : same_but_answer (sent fresh_process) W1 W2).
  { split; [reflexivity|]. split; [reflexivity|].
    intros [|m] u Hm; [contradiction Hm|]; reflexivity. }
  destruct (manifest_independent_of_tag W1 W2 fresh_process
              (release_response (release (Some "v1.2.3") assets))
              (release_response (release None assets))
              (release (Some "v1.2.3") assets) (release None assets)
              Hworlds eq_refl eq_refl eq_refl eq_refl eq_refl eq_refl
              (same_but_tag_release "v1.2.3" assets)) as [Hsame Htag].
  split; [exact Hsame|]. split; [reflexivity|].
  destruct (Htag (JStr "https://example/client.tar.xz") (JStr "v1.2.3")
              (after_request fresh_process) eq_refl) as [_ H2].
  rewrite H2. reflexivity.
Defined.

Lemma manifest_tags_and_paths_witness :
  let data := release (Some "v1.2.3") [asset "client.tar.xz" "https://example/client.tar.xz"] in
  exists doc p',
    generate_update_db (release_world data) fresh_process = (Return doc, p')
    /\ exists entries tags_dictionary,
         lookup_path doc ["files"] = Some (JDict entries)
         /\ lookup_path doc ["tags_dictionary"] = Some (JDict tags_dictionary)
         /\ dict_keys entries
            = ["Scripts/cloud_saves.sh"; "cloud_saves/updates/client.tar.xz"].
Proof.
  intros data.
  destruct (generate_update_db (release_world data) fresh_process) as [o p'] eqn:Hrun.
  assert (Ho : exists doc, o = Return doc).
  { vm_compute in Hrun. injection Hrun as <- _. eexists. reflexivity. }
  destruct Ho as [doc ->]. exists doc, p'. split; [reflexivity|].
  destruct (manifest_tags_and_paths (release_world data) fresh_process p' doc Hrun)
    as (entries & tags_dictionary & H1 & H2 & H3 & _).
  exists entries, tags_dictionary. auto.
Defined.

Lemma manifest_static_fields_witness :
  let data := release (Some "v1.2.3") [asset "client.tar.xz" "https://example/client.tar.xz"] in
  exists doc p',
    generate_update_db (release_world data) fresh_process = (Return doc, p')
    /\ with_placeholders doc = get_update_db_schema.
Proof.
  intros data.
  destruct (generate_update_db (release_world data) fresh_process) as [o p'] eqn:Hrun.
  assert (Ho : exists doc, o = Return doc).
  { vm_compute in Hrun. injection Hrun as <- _. eexists. reflexivity. }
  destruct Ho as [doc ->]. exists doc, p'. split; [reflexivity|].
  exact (proj2 (manifest_static_fields (release_world data) fresh_process p' doc Hrun)).
Defined.

(** ** The JSON text format: strings *)

(** What one character is written as is read back as that character. *)
Lemma scan_escape_char (c : ascii) (s : text) :
  scan_string (escape_char c ++ s)
  = parse_bind (scan_string s) (fun s' rest => Parsed (String c s') rest).
Proof. destruct c as [[] [] [] [] [] [] [] []]; reflexivity. Qed.

Lemma scan_escape (s : string) (rest : text) :
  scan_string (escape s ++ "034"%char :: rest) = Parsed s rest.
Proof.
  induction s as [|c s IH]; [reflexivity|].
  cbn [escape]. rewrite <- app_assoc, scan_escape_char, IH. reflexivity.
Qed.

(** ** The JSON text format: integers *)

Lemma code_chr (z : Z) : 0 <= z < 256 -> code (chr z) = z.
Proof.
  intros Hz. unfold code, chr.
  rewrite N_ascii_embedding by lia. lia.
Qed.

Lemma digit_char_spec (d : Z) :
  0 <= d < 10 -> is_digit (digit_char d) = true /\ code (digit_char d) - 48 = d.
Proof.
  intros Hd. unfold is_digit, digit_char. rewrite code_chr by lia.
  split; lia.
Qed.

Lemma digit_char_zero (d : Z) : 0 < d < 10 -> digit_char d <> "0"%char.
Proof.
  intros Hd E. apply (f_equal code) in E. unfold digit_char in E.
  rewrite code_chr in E by lia. vm_compute (code "0") in E. lia.
Qed.

Lemma scan_digits_app (ds rest : text) (acc : Z) :
  Forall (fun c => is_digit c = true) ds ->
  scan_digits (ds ++ rest) acc = scan_digits rest (value_of ds acc).
Proof.
  intros Hds. revert acc. induction Hds as [|c ds Hc _ IH]; intros acc; [reflexivity|].
  cbn [app scan_digits value_of fold_left]. rewrite Hc. apply IH.
Qed.

(** The digits written for a positive number: a first digit that is not
    zero, then digits, whose value is the number. *)
Lemma digits_aux_spec (fuel : nat) :
  forall (n : Z) (acc : text),
    0 < n < 2 ^ Z.of_nat fuel ->
    exists c ds,
      digits_aux fuel n acc = c :: ds ++ acc
      /\ is_digit c = true /\ c <> "0"%char
      /\ Forall (fun c => is_digit c = true) ds
      /\ value_of (c :: ds) 0 = n.
Proof.
  induction fuel as [|fuel IH]; intros n acc Hn.
  - cbn in Hn. lia.
  - cbn [digits_aux]. destruct (n <? 10) eqn:Hlt.
    + apply Z.ltb_lt in Hlt. exists (digit_char (n mod 10)), [].
      rewrite Z.mod_small by lia.
      destruct (digit_char_spec n) as [Hd Hv]; [lia|].
      repeat split; [exact Hd | apply digit_char_zero; lia | constructor |].
      cbn [value_of fold_left]. lia.
    + apply Z.ltb_ge in Hlt.
      assert (Hpow : 2 ^ Z.of_nat (S fuel) = 2 * 2 ^ Z.of_nat fuel)
        by (rewrite Nat2Z.inj_succ, Z.pow_succ_r by lia; reflexivity).
      destruct (IH (n / 10) (digit_char (n mod 10) :: acc))
        as (c & ds & Hrun & Hc & Hc0 & Hds & Hval).
      { pose proof (Z.div_mod n 10). pose proof (Z.mod_pos_bound n 10). lia. }
      destruct (digit_char_spec (n mod 10)) as [Hd Hv];
        [pose proof (Z.mod_pos_bound n 10); lia|].
      exists c, (ds ++ [digit_char (n mod 10)]).
      split; [rewrite Hrun, <- app_assoc; reflexivity|].
      split; [exact Hc|]. split; [exact Hc0|]. split.
      * apply Forall_app. split; [exact Hds | constructor; [exact Hd | constructor]].
      * change (value_of ((c :: ds) ++ [digit_char (n mod 10)]) 0 = n).
        unfold value_of in *. rewrite fold_left_app, Hval. cbn [fold_left].
        pose proof (Z.div_mod n 10). lia.
Qed.

Lemma digits_spec (n : Z) :
  0 < n ->
  exists c ds,
    digits n = c :: ds
    /\ is_digit c = true /\ c <> "0"%char
    /\ Forall (fun c => is_digit c = true) ds
    /\ value_of (c :: ds) 0 = n.
Proof.
  intros Hn. unfold digits.
  destruct (digits_aux_spec (S (Z.to_nat (Z.log2 n))) n []) as (c & ds & H).
  - split; [exact Hn|].
    rewrite Nat2Z.inj_succ, Z2Nat.id by apply Z.log2_nonneg.
    apply Z.log2_spec, Hn.
  - exists c, ds. rewrite app_nil_r in H. exact H.
Qed.

Lemma number_ends_scan (rest : text) (acc : Z) :
  number_ends rest -> scan_digits rest acc = (acc, rest) /\ float_follows rest = false.
Proof.
  destruct rest as [|c rest]; [split; reflexivity|].
  intros (Hd & Hdot & He & HE). cbn [scan_digits]. rewrite Hd. split; [reflexivity|].
  cbn [float_follows]. destruct rest as [|d rest]; [reflexivity|].
  apply Ascii.eqb_neq in Hdot, He, HE. rewrite Hdot, He, HE. reflexivity.
Qed.

Lemma is_digit_neq (c x : ascii) : is_digit c = true -> is_digit x = false -> c <> x.
Proof. intros Hc Hx ->. congruence. Qed.

(** A number written by [json.dump] is read back. *)
Lemma scan_number_int_repr (n : Z) (rest : text) :
  number_ends rest ->
  scan_number (int_repr n ++ rest) = Parsed (JInt n) rest.
Proof.
  intros Hrest.
  assert (Hpos : forall m, 0 < m ->
            exists c ds, digits m = c :: ds /\ is_digit c = true
              /\ scan_nat (digits m ++ rest) = Parsed m rest).
  { intros m Hm. destruct (digits_spec m Hm) as (c & ds & Hrun & Hc & Hc0 & Hds & Hval).
    exists c, ds. split; [exact Hrun|]. split; [exact Hc|].
    rewrite Hrun. cbn [app scan_nat].
    apply Ascii.eqb_neq in Hc0. rewrite Hc0, Hc.
    change (c :: ds ++ rest) with ((c :: ds) ++ rest).
    rewrite scan_digits_app by (constructor; assumption).
    rewrite Hval. destruct (number_ends_scan rest m Hrest) as [-> ->]. reflexivity. }
  unfold int_repr. destruct (n <? 0) eqn:Hneg.
  - apply Z.ltb_lt in Hneg.
    destruct (Hpos (- n)) as (c & ds & Hrun & Hc & Hscan); [lia|].
    cbn [app scan_number Ascii.eqb Bool.eqb].
    assert (Hinf : starts_with (t "Infinity") (digits (- n) ++ rest) = None).
    { unfold starts_with. rewrite Hrun. destruct (decide _) as [E|]; [|reflexivity].
      cbn in E. injection E as -> _. discriminate Hc. }
    rewrite Hinf, Hscan. cbn [parse_bind]. do 2 f_equal. lia.
  - apply Z.ltb_ge in Hneg. destruct (Z.eq_dec n 0) as [-> | Hn0].
    + change (digits 0) with ["0"%char]. cbn [app scan_number Ascii.eqb Bool.eqb scan_nat].
      destruct (number_ends_scan rest 0 Hrest) as [_ ->]. reflexivity.
    + destruct (Hpos n) as (c & ds & Hrun & Hc & Hscan); [lia|].
      rewrite Hrun in *. cbn [app scan_number].
      assert (Hminus : Ascii.eqb c "-"%char = false)
        by (apply Ascii.eqb_neq, is_digit_neq; [exact Hc | reflexivity]).
      rewrite Hminus. cbn [app] in Hscan. rewrite Hscan. reflexivity.
Qed.

(** The first character of a number is a minus sign or a digit. *)
Lemma int_repr_head (n : Z) :
  exists c r, int_repr n = c :: r /\ (c = "-"%char \/ is_digit c = true).
Proof.
  unfold int_repr. destruct (n <? 0) eqn:Hneg.
  - eexists _, _. split; [reflexivity | left; reflexivity].
  - apply Z.ltb_ge in Hneg. destruct (Z.eq_dec n 0) as [-> | Hn0].
    + exists "0"%char, []. split; [reflexivity | right; reflexivity].
    + destruct (digits_spec n) as (c & ds & Hrun & Hc & _); [lia|].
      exists c, ds. split; [exact Hrun | right; exact Hc].
Qed.

(** ** The JSON text format: values *)

Lemma fuel_for_list (l : list json) : fuel_for (JList l) = S (elements_fuel l).
Proof. reflexivity. Qed.

Lemma fuel_for_dict (l : dict) : fuel_for (JDict l) = S (members_fuel l).
Proof. reflexivity. Qed.

Lemma wf_list (l : list json) : wf (JList l) <-> Forall wf l.
Proof.
  cbn [wf]. induction l as [|x l IH]; [split; [constructor | trivial]|].
  rewrite Forall_cons, IH. reflexivity.
Qed.

Lemma wf_dict (l : dict) :
  wf (JDict l) <-> NoDup (dict_keys l) /\ Forall (fun kv => wf (snd kv)) l.
Proof.
  cbn [wf]. apply and_iff_compat_l.
  induction l as [|x l IH]; [split; [constructor | trivial]|].
  rewrite Forall_cons, IH. reflexivity.
Qed.

Lemma value_ends_number (rest : text) : value_ends rest -> number_ends rest.
Proof.
  destruct rest as [|c rest]; [trivial|]. intros [-> | ->]; cbn; repeat split; discriminate.
Qed.

Lemma skip_ws_spaces (n : nat) (s : text) : skip_ws (repeat " "%char n ++ s) = skip_ws s.
Proof. induction n as [|n IH]; [reflexivity | exact IH]. Qed.

Lemma skip_ws_newline_indent (level : nat) (s : text) :
  skip_ws (newline_indent level ++ s) = skip_ws s.
Proof. unfold newline_indent. cbn [app skip_ws is_ws Ascii.eqb Bool.eqb orb]. apply skip_ws_spaces. Qed.

Lemma skip_ws_head (c : ascii) (s : text) : is_ws c = false -> skip_ws (c :: s) = c :: s.
Proof. intros H. cbn [skip_ws]. rewrite H. reflexivity. Qed.

Lemma is_digit_starts_value (c : ascii) : is_digit c = true -> starts_value c.
Proof.
  intros Hc. unfold starts_value, is_ws.
  assert (H : forall x, is_digit x = false -> Ascii.eqb c x = false)
    by (intros x Hx; apply Ascii.eqb_neq, is_digit_neq; assumption).
  rewrite !H by reflexivity.
  repeat split; try reflexivity; apply is_digit_neq; (exact Hc || reflexivity).
Qed.

Lemma dump_head (level : nat) (j : json) :
  exists c r, dump level j = c :: r /\ starts_value c.
Proof.
  destruct j as [|[]|n|s|[|x l]|[|kv items]];
    try (eexists _, _; split; [reflexivity|]; repeat split; (reflexivity || discriminate)).
  destruct (int_repr_head n) as (c & r & Hrun & [-> | Hc]).
  - exists "-"%char, r. split; [exact Hrun|]. repeat split; (reflexivity || discriminate).
  - exists c, r. split; [exact Hrun | apply is_digit_starts_value, Hc].
Qed.

Lemma skip_ws_dump (level : nat) (j : json) (s : text) :
  skip_ws (dump level j ++ s) = dump level j ++ s.
Proof.
  destruct (dump_head level j) as (c & r & -> & Hws & _). apply skip_ws_head, Hws.
Qed.

(** *** Dicts built from distinct keys *)

Lemma dict_set_fresh (d : dict) (k : string) (v : json) :
  k ∉ dict_keys d -> dict_set d k v = d ++ [(k, v)].
Proof.
  induction d as [|[k' v'] d IH]; intros Hk; [reflexivity|].
  cbn [dict_keys map fst] in Hk. apply not_elem_of_cons in Hk as [Hne Hk].
  cbn [dict_set app]. destruct (String.eqb_spec k' k) as [E|_]; [congruence|].
  f_equal. apply IH, Hk.
Qed.

Lemma dict_of_pairs_nodup (l : dict) : NoDup (dict_keys l) -> dict_of_pairs l = l.
Proof.
  unfold dict_of_pairs.
  assert (H : forall acc, NoDup (dict_keys (acc ++ l)) ->
            fold_left (fun d kv => dict_set d (fst kv) (snd kv)) l acc = acc ++ l).
  { induction l as [|[k v] l IH]; intros acc Hnd; cbn [fold_left].
    - symmetry. apply app_nil_r.
    - cbn [fst snd]. rewrite dict_set_fresh.
      + rewrite IH; rewrite <- app_assoc; [reflexivity | exact Hnd].
      + unfold dict_keys in *. rewrite map_app in Hnd.
        apply NoDup_app in Hnd as (_ & Hdisj & _). intros Hin.
        apply (Hdisj k Hin). cbn. left. }
  intros Hnd. apply (H [] Hnd).
Qed.

(** *** One step of the scanner *)

Lemma scan_once_string (fuel : nat) (s : text) :
  scan_once (S fuel) ("034"%char :: s)
  = parse_bind (scan_string s) (fun s' rest => Parsed (JStr s') rest).
Proof. reflexivity. Qed.

Lemma scan_once_array (fuel : nat) (s : text) :
  scan_once (S fuel) ("["%char :: s)
  = match skip_ws s with
    | c' :: r' =>
        if Ascii.eqb c' "]"%char then Parsed (JList []) r'
        else parse_bind (scan_elements fuel (c' :: r'))
               (fun l rest => Parsed (JList l) rest)
    | [] => Malformed
    end.
Proof. reflexivity. Qed.

Lemma scan_once_object (fuel : nat) (s : text) :
  scan_once (S fuel) ("{"%char :: s)
  = match skip_ws s with
    | c' :: r' =>
        if Ascii.eqb c' "}"%char then Parsed (JDict []) r'
        else parse_bind (scan_members fuel (c' :: r'))
               (fun l rest => Parsed (JDict (dict_of_pairs l)) rest)
    | [] => Malformed
    end.
Proof. reflexivity. Qed.

Lemma scan_once_number (fuel : nat) (c : ascii) (s : text) :
  c = "-"%char \/ is_digit c = true ->
  scan_once (S fuel) (c :: s) = scan_number (c :: s).
Proof.
  intros [-> | Hc]; [reflexivity|].
  cbn [scan_once].
  assert (H : forall x, is_digit x = false -> Ascii.eqb c x = false)
    by (intros x Hx; apply Ascii.eqb_neq, is_digit_neq; assumption).
  rewrite !H by reflexivity. rewrite Hc. reflexivity.
Qed.

Lemma scan_elements_step (fuel : nat) (s : text) :
  scan_elements (S fuel) s
  = parse_bind (scan_once fuel s) (fun v rest =>
      match skip_ws rest with
      | c :: r =>
          if Ascii.eqb c "]"%char then Parsed [v] r
          else if Ascii.eqb c ","%char then
            parse_bind (scan_elements fuel (skip_ws r))
              (fun l rest' => Parsed (v :: l) rest')
          else Malformed
      | [] => Malformed
      end).
Proof. reflexivity. Qed.

Lemma scan_members_step (fuel : nat) (s : text) :
  scan_members (S fuel) ("034"%char :: s)
  = parse_bind (scan_string s) (fun k rest =>
      match skip_ws rest with
      | c1 :: r1 =>
          if Ascii.eqb c1 ":"%char then
            parse_bind (scan_once fuel (skip_ws r1)) (fun v rest' =>
              match skip_ws rest' with
              | c2 :: r2 =>
                  if Ascii.eqb c2 "}"%char then Parsed [(k, v)] r2
                  else if Ascii.eqb c2 ","%char then
                    parse_bind (scan_members fuel (skip_ws r2))
                      (fun l rest'' => Parsed ((k, v) :: l) rest'')
                  else Malformed
              | [] => Malformed
              end)
          else Malformed
      | [] => Malformed
      end).
Proof. reflexivity. Qed.

Lemma scan_once_null (fuel : nat) (rest : text) :
  scan_once (S fuel) (t "null" ++ rest) = Parsed JNull rest.
Proof. reflexivity. Qed.

Lemma scan_once_true (fuel : nat) (rest : text) :
  scan_once (S fuel) (t "true" ++ rest) = Parsed (JBool true) rest.
Proof. reflexivity. Qed.

Lemma scan_once_false (fuel : nat) (rest : text) :
  scan_once (S fuel) (t "false" ++ rest) = Parsed (JBool false) rest.
Proof. reflexivity. Qed.

(** *** Reading back what was written *)

Lemma value_ends_comma (s : text) : value_ends (","%char :: s).
Proof. left. reflexivity. Qed.

Lemma value_ends_newline (level : nat) (s : text) : value_ends (newline_indent level ++ s).
Proof. right. reflexivity. Qed.

Lemma scan_elements_dump (l : list json) :
  Forall reads_back l -> l <> [] ->
  forall (level fuel : nat) (rest : text),
    (elements_fuel l <= fuel)%nat ->
    scan_elements fuel
      (join_items (S level) (map (dump (S level)) l)
         ++ newline_indent level ++ "]"%char :: rest)
    = Parsed l rest.
Proof.
  induction 1 as [|x l Hx Hl IH]; [congruence|]. intros _ level fuel rest Hfuel.
  cbn [elements_fuel fold_right] in Hfuel. fold (elements_fuel l) in Hfuel.
  destruct fuel as [|fuel]; [lia|]. rewrite scan_elements_step.
  destruct l as [|y l].
  - cbn [map join_items].
    rewrite (Hx (S level) fuel) by (lia || apply value_ends_newline).
    cbn [parse_bind]. rewrite skip_ws_newline_indent. reflexivity.
  - change (join_items (S level) (map (dump (S level)) (x :: y :: l)))
      with (dump (S level) x ++ ","%char :: newline_indent (S level)
              ++ join_items (S level) (map (dump (S level)) (y :: l))).
    rewrite <- !app_assoc. cbn [app].
    rewrite (Hx (S level) fuel) by (lia || apply value_ends_comma).
    cbn [parse_bind skip_ws is_ws Ascii.eqb Bool.eqb orb].
    rewrite <- app_assoc, skip_ws_newline_indent.
    assert (Hskip : forall s, skip_ws (join_items (S level) (map (dump (S level)) (y :: l)) ++ s)
                     = join_items (S level) (map (dump (S level)) (y :: l)) ++ s).
    { intros s. destruct l; cbn [map join_items]; [apply skip_ws_dump|].
      rewrite <- app_assoc. apply skip_ws_dump. }
    rewrite Hskip, IH by (discriminate || lia). reflexivity.
Qed.

Lemma scan_members_dump (l : dict) :
  Forall (fun kv => reads_back (snd kv)) l -> l <> [] ->
  forall (level fuel : nat) (rest : text),
    (members_fuel l <= fuel)%nat ->
    scan_members fuel
      (join_items (S level) (map (dump_member (S level)) l)
         ++ newline_indent level ++ "}"%char :: rest)
    = Parsed l rest.
Proof.
  induction 1 as [|[k v] l Hx Hl IH]; [congruence|]. intros _ level fuel rest Hfuel.
  cbn [members_fuel fold_right snd] in Hfuel. fold (members_fuel l) in Hfuel.
  cbn [snd] in Hx.
  destruct fuel as [|fuel]; [lia|].
  assert (Hmember : forall s,
            scan_members (S fuel) (dump_member (S level) (k, v) ++ s)
            = parse_bind (scan_once fuel (dump (S level) v ++ s)) (fun v rest' =>
                match skip_ws rest' with
                | c2 :: r2 =>
                    if Ascii.eqb c2 "}"%char then Parsed [(k, v)] r2
                    else if Ascii.eqb c2 ","%char then
                      parse_bind (scan_members fuel (skip_ws r2))
                        (fun l rest'' => Parsed ((k, v) :: l) rest'')
                    else Malformed
                | [] => Malformed
                end)).
  { intros s. unfold dump_member, encode_string. cbn [fst snd app].
    rewrite scan_members_step. rewrite <- !app_assoc. cbn [app].
    rewrite scan_escape.
    cbn [parse_bind t list_ascii_of_string app skip_ws is_ws Ascii.eqb Bool.eqb orb].
    rewrite skip_ws_dump. reflexivity. }
  destruct l as [|y l].
  - cbn [map join_items]. rewrite Hmember.
    rewrite (Hx (S level) fuel) by (lia || apply value_ends_newline).
    cbn [parse_bind]. rewrite skip_ws_newline_indent. reflexivity.
  - change (join_items (S level) (map (dump_member (S level)) ((k, v) :: y :: l)))
      with (dump_member (S level) (k, v) ++ ","%char :: newline_indent (S level)
              ++ join_items (S level) (map (dump_member (S level)) (y :: l))).
    rewrite <- !app_assoc. cbn [app]. rewrite Hmember.
    rewrite (Hx (S level) fuel) by (lia || apply value_ends_comma).
    cbn [parse_bind skip_ws is_ws Ascii.eqb Bool.eqb orb].
    rewrite <- app_assoc, skip_ws_newline_indent.
    assert (Hskip : forall s, skip_ws (join_items (S level) (map (dump_member (S level)) (y :: l)) ++ s)
                     = join_items (S level) (map (dump_member (S level)) (y :: l)) ++ s).
    { intros s. destruct l; cbn [map join_items]; reflexivity. }
    rewrite Hskip, IH by (discriminate || lia). reflexivity.
Qed.

(** Every value with distinct keys in each of its dicts is read back. *)
Lemma scan_once_dump (v : json) : wf v -> reads_back v.
Proof.
  induction v as [|[]|n|s|l IH|items IH] using json_ind; intros Hwf level fuel rest Hfuel Hrest;
    (destruct fuel as [|fuel]; [cbn in Hfuel; lia|]).
  - apply scan_once_null.
  - apply scan_once_true.
  - apply scan_once_false.
  - cbn [dump]. destruct (int_repr_head n) as (c & r & Hrun & Hc).
    pose proof (scan_number_int_repr n rest (value_ends_number rest Hrest)) as Hnum.
    rewrite Hrun in *. cbn [app] in *. rewrite scan_once_number by exact Hc. exact Hnum.
  - cbn [dump]. unfold encode_string. cbn [app]. rewrite scan_once_string.
    rewrite <- app_assoc. cbn [app]. rewrite scan_escape. reflexivity.
  - rewrite fuel_for_list in Hfuel. apply wf_list in Hwf.
    destruct l as [|x l]; [reflexivity|].
    assert (Hread : Forall reads_back (x :: l)).
    { rewrite Forall_forall in *. intros y Hy. apply IH; [exact Hy|]. apply Hwf, Hy. }
    cbn [dump]. cbn [app]. rewrite scan_once_array.
    rewrite <- !app_assoc, skip_ws_newline_indent.
    pose proof (scan_elements_dump (x :: l) Hread ltac:(discriminate) level fuel rest
                  ltac:(lia)) as Hscan.
    cbn [t list_ascii_of_string app]. 
    destruct (dump_head (S level) x) as (c & r & Hhead & Hws & Hbr & _).
    assert (Hjoin : exists r', join_items (S level) (map (dump (S level)) (x :: l)) = c :: r').
    { cbn [map join_items]. rewrite Hhead. destruct l; cbn; eauto. }
    destruct Hjoin as [r' Hjoin]. rewrite Hjoin in *. cbn [app] in *.
    rewrite skip_ws_head by exact Hws.
    apply Ascii.eqb_neq in Hbr. rewrite Hbr, Hscan. reflexivity.
  - rewrite fuel_for_dict in Hfuel. apply wf_dict in Hwf as [Hnd Hwf].
    destruct items as [|[k v] items]; [reflexivity|].
    assert (Hread : Forall (fun kv => reads_back (snd kv)) ((k, v) :: items)).
    { rewrite Forall_forall in *. intros y Hy. apply IH; [exact Hy|]. apply Hwf, Hy. }
    cbn [dump]. cbn [app]. rewrite scan_once_object.
    rewrite <- !app_assoc, skip_ws_newline_indent.
    pose proof (scan_members_dump ((k, v) :: items) Hread ltac:(discriminate) level fuel rest
                  ltac:(lia)) as Hscan.
    change (fun kv : string * json => encode_string (fst kv) ++ t ": " ++ dump (S level) (snd kv))
      with (dump_member (S level)).
    cbn [t list_ascii_of_string app].
    assert (Hjoin : exists r', join_items (S level) (map (dump_member (S level)) ((k, v) :: items))
                               = "034"%char :: r').
    { cbn [map join_items]. destruct items; cbn; eauto. }
    destruct Hjoin as [r' Hjoin]. rewrite Hjoin in *. cbn [app] in *.
    cbn [skip_ws is_ws Ascii.eqb Bool.eqb orb]. rewrite Hscan. cbn [parse_bind].
    rewrite dict_of_pairs_nodup by exact Hnd. reflexivity.
Qed.

(** *** The fuel [json_loads] gives is enough *)

Lemma length_newline_indent (level : nat) : (1 <= length (newline_indent level))%nat.
Proof. cbn. lia. Qed.

Lemma elements_fuel_length (level : nat) (l : list json) :
  Forall (fun x => forall level, (fuel_for x <= length (dump level x))%nat) l ->
  (elements_fuel l <= S (length (join_items level (map (dump level) l))))%nat.
Proof.
  induction 1 as [|x l Hx _ IH]; [cbn; lia|].
  cbn [elements_fuel fold_right]. fold (elements_fuel l).
  specialize (Hx level). destruct l as [|y l].
  - cbn [map join_items elements_fuel fold_right]. lia.
  - change (join_items level (map (dump level) (x :: y :: l)))
      with (dump level x ++ ","%char :: newline_indent level
              ++ join_items level (map (dump level) (y :: l))).
    rewrite length_app. cbn [length]. rewrite length_app.
    pose proof (length_newline_indent level). lia.
Qed.

Lemma members_fuel_length (level : nat) (l : dict) :
  Forall (fun kv => forall level, (fuel_for (snd kv) <= length (dump level (snd kv)))%nat) l ->
  (members_fuel l <= S (length (join_items level (map (dump_member level) l))))%nat.
Proof.
  induction 1 as [|[k v] l Hx _ IH]; [cbn; lia|].
  cbn [members_fuel fold_right snd]. fold (members_fuel l).
  specialize (Hx level). cbn [snd] in Hx.
  assert (Hm : (length (dump level v) <= length (dump_member level (k, v)))%nat).
  { unfold dump_member. rewrite !length_app. cbn [snd]. lia. }
  destruct l as [|y l].
  - cbn [map join_items members_fuel fold_right]. lia.
  - change (join_items level (map (dump_member level) ((k, v) :: y :: l)))
      with (dump_member level (k, v) ++ ","%char :: newline_indent level
              ++ join_items level (map (dump_member level) (y :: l))).
    rewrite length_app. cbn [length]. rewrite length_app.
    pose proof (length_newline_indent level). lia.
Qed.

Lemma fuel_for_length (v : json) :
  forall level, (fuel_for v <= length (dump level v))%nat.
Proof.
  induction v as [|[]|n|s|l IH|items IH] using json_ind; intros level.
  1-3: cbn; lia.
  - cbn [fuel_for dump]. destruct (int_repr_head n) as (c & r & -> & _). cbn. lia.
  - change (1 <= length (encode_string s))%nat. unfold encode_string. cbn [length]. lia.
  - rewrite fuel_for_list. destruct l as [|x l]; [cbn; lia|].
    pose proof (elements_fuel_length (S level) (x :: l) IH).
    pose proof (length_newline_indent (S level)).
    cbn [dump]. cbn [length]. rewrite !length_app. lia.
  - rewrite fuel_for_dict. destruct items as [|kv items]; [cbn; lia|].
    pose proof (members_fuel_length (S level) (kv :: items) IH).
    pose proof (length_newline_indent (S level)).
    cbn [dump]. cbn [length]. rewrite !length_app.
    change (fun kv : string * json => encode_string (fst kv) ++ t ": " ++ dump (S level) (snd kv))
      with (dump_member (S level)). lia.
Qed.

(** What [json.dumps] writes, [json.loads] reads back. *)
Lemma json_loads_dumps (v : json) : wf v -> json_loads (json_dumps v) = Loaded v.
Proof.
  intros Hwf. unfold json_loads, json_dumps.
  pose proof (skip_ws_dump 0 v []) as Hskip. rewrite app_nil_r in Hskip.
  rewrite Hskip.
  pose proof (scan_once_dump v Hwf 0%nat (S (length (dump 0 v))) []) as Hscan.
  rewrite app_nil_r in Hscan. rewrite Hscan; [reflexivity | | exact I].
  pose proof (fuel_for_length v 0%nat). lia.
Qed.

(** *** Files hold what was written *)

Lemma escape_char_ascii (c : ascii) : Forall is_ascii (escape_char c).
Proof.
  destruct c as [[] [] [] [] [] [] [] []];
    repeat (constructor; [reflexivity|]); constructor.
Qed.

Lemma is_digit_ascii (c : ascii) : is_digit c = true -> is_ascii c.
Proof. unfold is_digit, is_ascii. lia. Qed.

Lemma int_repr_ascii (n : Z) : Forall is_ascii (int_repr n).
Proof.
  assert (H : forall m, 0 <= m -> Forall is_ascii (digits m)).
  { intros m Hm. destruct (Z.eq_dec m 0) as [-> | Hne].
    - repeat constructor.
    - destruct (digits_spec m) as (c & ds & -> & Hc & _ & Hds & _); [lia|].
      constructor; [apply is_digit_ascii, Hc|].
      eapply Forall_impl; [exact Hds | apply is_digit_ascii]. }
  unfold int_repr. destruct (n <? 0) eqn:Hneg.
  - apply Z.ltb_lt in Hneg. constructor; [reflexivity | apply H; lia].
  - apply Z.ltb_ge in Hneg. apply H, Hneg.
Qed.

Lemma encode_string_ascii (s : string) : Forall is_ascii (encode_string s).
Proof.
  unfold encode_string. constructor; [reflexivity|].
  apply Forall_app. split; [|repeat constructor].
  induction s as [|c s IH]; [constructor|].
  cbn [escape]. apply Forall_app. split; [apply escape_char_ascii | exact IH].
Qed.

Lemma newline_indent_ascii (level : nat) : Forall is_ascii (newline_indent level).
Proof.
  unfold newline_indent. constructor; [reflexivity|].
  induction (4 * level)%nat; constructor; [reflexivity | assumption].
Qed.

Lemma join_items_ascii (level : nat) (l : list text) :
  Forall (Forall is_ascii) l -> Forall is_ascii (join_items level l).
Proof.
  induction 1 as [|x l Hx Hl IH]; [constructor|].
  destruct l as [|y l]; [exact Hx|].
  change (join_items level (x :: y :: l))
    with (x ++ ","%char :: newline_indent level ++ join_items level (y :: l)).
  apply Forall_app. split; [exact Hx|]. constructor; [reflexivity|].
  apply Forall_app. split; [apply newline_indent_ascii | exact IH].
Qed.

Lemma dump_ascii (v : json) : forall level, Forall is_ascii (dump level v).
Proof.
  induction v as [|[]|n|s|l IH|items IH] using json_ind; intros level;
    try (repeat constructor; fail).
  - apply int_repr_ascii.
  - apply encode_string_ascii.
  - destruct l as [|x l]; [repeat constructor|].
    cbn [dump]. constructor; [reflexivity|].
    apply Forall_app; split; [apply newline_indent_ascii|].
    apply Forall_app; split;
      [|apply Forall_app; split; [apply newline_indent_ascii | repeat constructor]].
    apply join_items_ascii, Forall_map.
    eapply Forall_impl; [exact IH|]. intros y Hy. apply Hy.
  - destruct items as [|kv items]; [repeat constructor|].
    cbn [dump]. constructor; [reflexivity|].
    apply Forall_app; split; [apply newline_indent_ascii|].
    apply Forall_app; split;
      [|apply Forall_app; split; [apply newline_indent_ascii | repeat constructor]].
    apply join_items_ascii, Forall_map.
    eapply Forall_impl; [exact IH|]. intros y Hy. cbn beta.
    apply Forall_app; split; [apply encode_string_ascii|].
    apply Forall_app; split; [repeat constructor | apply Hy].
Qed.

Lemma byte_to_Z_of_ascii (c : ascii) : byte_to_Z (byte_of_ascii c) = code c.
Proof. destruct c as [[] [] [] [] [] [] [] []]; reflexivity. Qed.

Lemma decode_encode_utf8 (s : text) :
  Forall is_ascii s -> decode_utf8 (encode_utf8 s) = Some s.
Proof.
  intros Hs. unfold decode_utf8, encode_utf8.
  assert (Hall : forallb (fun x => byte_to_Z x <? 128) (map byte_of_ascii s) = true).
  { apply forallb_forall. intros x Hx. apply in_map_iff in Hx as (c & <- & Hc).
    rewrite byte_to_Z_of_ascii. apply Z.ltb_lt.
    rewrite Forall_forall in Hs. apply Hs, list_elem_of_In, Hc. }
  rewrite Hall. f_equal. rewrite map_map.
  rewrite <- (map_id s) at 2. apply map_ext. intros c. apply ascii_of_byte_of_ascii.
Qed.

(** ** The layout of the text written *)

Lemma indented_nonempty (width : nat) (j : json) : indented width j <> [].
Proof.
  destruct j as [|[]|n|s|[|x l]|[|kv items]]; cbn [indented]; discriminate.
Qed.

Lemma concat_sep (sep : text) (lines : list text) :
  lines <> [] -> concat (map (fun x => sep ++ x) lines) = sep ++ glue sep lines.
Proof.
  destruct lines as [|line rest]; [congruence|]. intros _.
  cbn [map concat glue]. symmetry. apply app_assoc.
Qed.

Lemma with_comma_nonempty (lines : list text) : lines <> [] -> with_comma lines <> [].
Proof. destruct lines as [|a [|b r]]; cbn; congruence. Qed.

Lemma glue_with_comma (sep : text) (lines : list text) :
  lines <> [] -> glue sep (with_comma lines) = glue sep lines ++ [","%char].
Proof.
  destruct lines as [|line rest]; [congruence|]. intros _.
  revert line. induction rest as [|x rest IH]; intros line.
  - cbn. rewrite !app_nil_r. reflexivity.
  - change (with_comma (line :: x :: rest)) with (line :: with_comma (x :: rest)).
    cbn [glue]. rewrite concat_sep by (apply with_comma_nonempty; discriminate).
    rewrite IH. rewrite concat_sep by discriminate.
    rewrite <- !app_assoc. reflexivity.
Qed.

Lemma glue_prefixed (sep prefix : text) (lines : list text) :
  lines <> [] -> glue sep (prefixed prefix lines) = prefix ++ glue sep lines.
Proof.
  destruct lines as [|line rest]; [congruence|]. intros _.
  cbn [prefixed glue]. symmetry. apply app_assoc.
Qed.

Lemma prefixed_nonempty (prefix : text) (lines : list text) : prefixed prefix lines <> [].
Proof. destruct lines; discriminate. Qed.

(** Items joined as [json.dump] joins them are the lines of the items, a
    comma after each but the last, each line after the indentation of the
    level. *)
Lemma join_items_separated (level : nat) (items : list (list text)) :
  Forall (fun item => item <> []) items ->
  items <> [] ->
  concat (map (fun x => newline_indent level ++ x) (separated items))
  = newline_indent level ++ join_items level (map (glue (newline_indent level)) items).
Proof.
  intros Hall. induction Hall as [|item rest Hitem Hrest IH]; [congruence|]. intros _.
  destruct rest as [|item' rest].
  - cbn [separated map join_items]. apply concat_sep, Hitem.
  - change (separated (item :: item' :: rest))
      with (with_comma item ++ separated (item' :: rest)).
    rewrite map_app, concat_app.
    rewrite concat_sep by (apply with_comma_nonempty, Hitem).
    rewrite glue_with_comma by exact Hitem.
    rewrite IH by discriminate.
    cbn [map join_items]. rewrite <- !app_assoc. reflexivity.
Qed.

Lemma newline_indent_succ (level : nat) (x : text) :
  newline_indent level ++ repeat " "%char 4 ++ x = newline_indent (S level) ++ x.
Proof.
  unfold newline_indent. cbn [app]. f_equal.
  rewrite app_assoc, <- repeat_app. do 2 f_equal. lia.
Qed.

Lemma indent_lines_sep (level : nat) (lines : list text) :
  concat (map (fun x => newline_indent level ++ x) (indent_lines 4 lines))
  = concat (map (fun x => newline_indent (S level) ++ x) lines).
Proof.
  unfold indent_lines. rewrite map_map. f_equal. apply map_ext.
  intros x. apply newline_indent_succ.
Qed.

(** The text [json.dump] writes for a value at a level of nesting is the
    lines of the value, indented by four spaces for each level inside it,
    with the indentation of the level between them. *)
Lemma dump_indented (v : json) :
  forall level, dump level v = glue (newline_indent level) (indented 4 v).
Proof.
  induction v as [|[]|n|s|l IH|items IH] using json_ind; intros level;
    try (cbn [indented glue map concat]; rewrite app_nil_r; reflexivity).
  - destruct l as [|x l]; [reflexivity|].
    cbn [dump indented glue]. f_equal.
    rewrite map_app, concat_app, indent_lines_sep.
    rewrite join_items_separated.
    + rewrite <- app_assoc. do 2 f_equal; [|cbn; rewrite app_nil_r; reflexivity].
      f_equal. rewrite map_map. apply List.map_ext_Forall.
      eapply Forall_impl; [exact IH|]. intros y Hy. apply Hy.
    + apply Forall_map, Forall_forall. intros y _. apply indented_nonempty.
    + discriminate.
  - destruct items as [|kv items]; [reflexivity|].
    cbn [dump indented glue]. f_equal.
    rewrite map_app, concat_app, indent_lines_sep.
    rewrite join_items_separated.
    + rewrite <- app_assoc. do 2 f_equal; [|cbn; rewrite app_nil_r; reflexivity].
      f_equal. rewrite map_map. apply List.map_ext_Forall.
      eapply Forall_impl; [exact IH|]. intros y Hy. cbn beta.
      rewrite glue_prefixed by apply indented_nonempty.
      rewrite <- app_assoc. do 2 f_equal. apply Hy.
    + apply Forall_map, Forall_forall. intros y _. apply prefixed_nonempty.
    + discriminate.
Qed.

Lemma json_dumps_indented (v : json) : json_dumps v = unlines (indented 4 v).
Proof. apply (dump_indented v 0%nat). Qed.

(** ** Python's [==] *)

Lemma dict_get_nodup (d : dict) (k : string) (v : json) :
  NoDup (dict_keys d) -> In (k, v) d -> dict_get d k = Some v.
Proof.
  induction d as [|[k' v'] d IH]; intros Hnd Hin; [destruct Hin|].
  cbn [dict_keys map fst] in Hnd. apply NoDup_cons in Hnd as [Hk' Hnd].
  cbn [dict_get]. destruct Hin as [[= -> ->] | Hin].
  - rewrite String.eqb_refl. reflexivity.
  - destruct (String.eqb_spec k' k) as [->|_]; [|apply IH; assumption].
    exfalso. apply Hk'. apply list_elem_of_In, in_map_iff. exists (k, v). auto.
Qed.

Lemma py_eq_list_cons (a a' : json) (r r' : list json) :
  py_eq (JList (a :: r)) (JList (a' :: r')) = py_eq a a' && py_eq (JList r) (JList r').
Proof. reflexivity. Qed.

Lemma py_eq_dict (d d' : dict) :
  py_eq (JDict d) (JDict d') = (length d =? length d')%nat && members_eq d d'.
Proof.
  cbn [py_eq]. f_equal. unfold members_eq.
  induction d as [|kv d IH]; [reflexivity|]. cbn [forallb].
  destruct (dict_get d' (fst kv)); [|reflexivity]. rewrite IH. reflexivity.
Qed.

(** A value equals itself. *)
Lemma py_eq_refl (v : json) : wf v -> py_eq v v = true.
Proof.
  induction v as [|b|n|s|l IH|items IH] using json_ind; intros Hwf.
  - reflexivity.
  - destruct b; reflexivity.
  - apply Z.eqb_refl.
  - apply String.eqb_refl.
  - apply wf_list in Hwf. induction IH as [|x l Hx _ IHl]; [reflexivity|].
    apply Forall_cons in Hwf as [Hwx Hwl].
    rewrite py_eq_list_cons, Hx, IHl by assumption. reflexivity.
  - apply wf_dict in Hwf as [Hnd Hwf]. rewrite py_eq_dict, Nat.eqb_refl.
    cbn [andb]. unfold members_eq. apply forallb_forall. intros [k v] Hin.
    cbn [fst snd]. rewrite (dict_get_nodup items k v Hnd Hin).
    rewrite Forall_forall in IH, Hwf.
    apply list_elem_of_In in Hin. apply (IH (k, v) Hin), (Hwf (k, v) Hin).
Qed.

(** ** The persistence gate *)

(** What the gate does, case by case. *)
Lemma save_run (update_db : json) (file_path : string) (p : process) :
  save_update_db_to_file_if_changed update_db file_path p
  = match files p !! file_path with
    | None => (Return tt, saved update_db file_path p)
    | Some content =>
        match file_json content with
        | Loaded existing_db =>
            if py_eq existing_db update_db
            then (Return tt, unchanged p)
            else (Return tt, saved update_db file_path p)
        | DecodeError => (Raise JSONDecodeError, p)
        | NotModelled => (OutsideModel, p)
        end
    end.
Proof.
  unfold save_update_db_to_file_if_changed. rewrite bind_run.
  unfold os_path_exists, json_load, file_json.
  destruct (files p !! file_path) as [content|] eqn:Hfile.
  - rewrite bool_decide_eq_true_2 by eauto. rewrite bind_run, Hfile.
    destruct (decode_utf8 content) as [s|]; [|reflexivity].
    destruct (json_loads s) as [existing_db| |]; try reflexivity.
    destruct (py_eq existing_db update_db); reflexivity.
  - rewrite bool_decide_eq_false_2 by (intros [x Hx]; discriminate Hx). reflexivity.
Qed.

Lemma file_json_dump (v : json) :
  wf v -> file_json (encode_utf8 (json_dumps v)) = Loaded v.
Proof.
  intros Hwf. unfold file_json.
  rewrite decode_encode_utf8 by apply dump_ascii. apply json_loads_dumps, Hwf.
Qed.

Lemma saved_file (obj : json) (path : string) (p : process) :
  files (saved obj path p) !! path = Some (encode_utf8 (json_dumps obj)).
Proof. cbn. apply lookup_insert_eq. Qed.

Lemma manifest_wf (now script_size : Z) (script_hash : string)
    (client_size : Z) (client_hash client_url : string) :
  wf (manifest now script_size script_hash client_size client_hash (JStr client_url)).
Proof.
  cbn. repeat split; apply (bool_decide_unpack _); vm_compute; exact I.
Qed.

(** Every document a run returns is a well-formed Python value. *)
Lemma generate_update_db_wf (W : world) (p p' : process) (doc : json) :
  generate_update_db W p = (Return doc, p') -> wf doc.
Proof.
  intros Hrun.
  destruct (generate_update_db_returns W p p' doc Hrun) as (ss & sh & cs & ch & u & ->).
  apply manifest_wf.
Qed.

(** C7: a document whose dicts have distinct keys, as every Python value
    and so every document of [generate_update_db] has, written with
    [json.dump] and read with [json.load], is read back as the same
    document, key order included; it compares equal to the original. *)
Theorem json_roundtrip (v : json) :
  wf v ->
  json_loads (json_dumps v) = Loaded v
  /\ file_json (encode_utf8 (json_dumps v)) = Loaded v
  /\ py_eq v v = true.
Proof.
  intros Hwf. split; [apply json_loads_dumps, Hwf|].
  split; [apply file_json_dump, Hwf | apply py_eq_refl, Hwf].
Qed.

Lemma sample_manifest_wf : wf sample_manifest.
Proof. apply manifest_wf. Qed.

Lemma json_roundtrip_witness :
  json_loads (json_dumps sample_manifest) = Loaded sample_manifest
  /\ file_json (encode_utf8 (json_dumps sample_manifest)) = Loaded sample_manifest
  /\ py_eq sample_manifest sample_manifest = true.
Proof. apply (json_roundtrip sample_manifest), sample_manifest_wf. Defined.

(** C2, as the code has it: when no file exists at the path the gate
    writes the document as JSON text, every level of nesting indented by
    four spaces more, and reports that it saved it; when a file exists and
    [json.load] gives a document, the gate compares it with Python's [==]
    (objects key by key whatever the order of the keys, lists item by
    item, [True == 1]): if they are equal, as a document is to itself, it
    leaves the file as it is and reports no changes, otherwise it writes
    and reports as when no file exists. *)
Theorem save_writes_when_changed (update_db : json) (file_path : string) (p : process) :
  (files p !! file_path = None ->
   save_update_db_to_file_if_changed update_db file_path p
   = (Return tt, saved update_db file_path p))
  /\ (forall content existing_db,
        files p !! file_path = Some content ->
        file_json content = Loaded existing_db ->
        save_update_db_to_file_if_changed update_db file_path p
        = if py_eq existing_db update_db
          then (Return tt, unchanged p)
          else (Return tt, saved update_db file_path p))
  /\ (forall content,
        files p !! file_path = Some content ->
        file_json content = Loaded update_db ->
        wf update_db ->
        save_update_db_to_file_if_changed update_db file_path p
        = (Return tt, unchanged p))
  /\ files (unchanged p) = files p
  /\ stdout (unchanged p) = stdout p ++ ["No changes detected in the update database."]
  /\ files (saved update_db file_path p)
     = <[file_path := encode_utf8 (json_dumps update_db)]> (files p)
  /\ stdout (saved update_db file_path p)
     = stdout p ++ ["Update database saved to " +:+ file_path +:+ "."]
  /\ json_dumps update_db = unlines (indented 4 update_db).
Proof.
  split; [intros Hnone; rewrite save_run, Hnone; reflexivity|].
  split; [intros content existing_db Hfile Hjson; rewrite save_run, Hfile, Hjson;
          reflexivity|].
  split; [|repeat split; try reflexivity; apply json_dumps_indented].
  intros content Hfile Hjson Hwf.
  rewrite save_run, Hfile, Hjson, py_eq_refl by exact Hwf. reflexivity.
Qed.

Lemma save_writes_when_changed_witness :
  save_update_db_to_file_if_changed sample_manifest UPDATE_DB_FILE fresh_process
  = (Return tt, saved sample_manifest UPDATE_DB_FILE fresh_process)
  /\ save_update_db_to_file_if_changed sample_manifest UPDATE_DB_FILE
       (process_with_db (encode_utf8 (json_dumps get_update_db_schema)))
     = (Return tt, saved sample_manifest UPDATE_DB_FILE
                     (process_with_db (encode_utf8 (json_dumps get_update_db_schema))))
  /\ save_update_db_to_file_if_changed sample_manifest UPDATE_DB_FILE
       (process_with_db (encode_utf8 (json_dumps sample_manifest)))
     = (Return tt, unchanged (process_with_db (encode_utf8 (json_dumps sample_manifest))))
  /\ files (saved sample_manifest UPDATE_DB_FILE fresh_process) !! UPDATE_DB_FILE
     = Some (file_lines sample_manifest_lines)
  /\ stdout (saved sample_manifest UPDATE_DB_FILE fresh_process)
     = ["Update database saved to mister_cloud_saves_db.json."].
Proof.
  split; [|split; [|split; [|split]]].
  - apply (save_writes_when_changed sample_manifest UPDATE_DB_FILE fresh_process).
    reflexivity.
  - apply (proj1 (proj2 (save_writes_when_changed sample_manifest UPDATE_DB_FILE
                           (process_with_db (encode_utf8 (json_dumps get_update_db_schema)))))
             (encode_utf8 (json_dumps get_update_db_schema)) get_update_db_schema);
      vm_compute; reflexivity.
  - apply (proj1 (proj2 (proj2 (save_writes_when_changed sample_manifest UPDATE_DB_FILE
                           (process_with_db (encode_utf8 (json_dumps sample_manifest))))))
             (encode_utf8 (json_dumps sample_manifest)));
      [vm_compute; reflexivity | vm_compute; reflexivity | apply sample_manifest_wf].
  - destruct (save_writes_when_changed sample_manifest UPDATE_DB_FILE fresh_process)
      as (_ & _ & _ & _ & _ & Hfiles & _ & Htext).
    rewrite Hfiles, Htext, lookup_insert_eq. vm_compute. reflexivity.
  - vm_compute. reflexivity.
Defined.

(** C2, as stated, fails where Python's [==] does not tell two documents
    apart: the file holds the document with [1] where the document has
    [true] for [reboot], so its parsed content differs from the document in
    that field; the gate neither writes nor reports that it saved, it
    reports no changes and leaves the file with [1]. *)
Lemma save_writes_when_differs_counterexample :
  let client := "cloud_saves/updates/client.tar.xz" in
  let existing_db := replace_path sample_manifest ["files"; client; "reboot"] (JInt 1) in
  let content := encode_utf8 (json_dumps existing_db) in
  let p := process_with_db content in
  let run := save_update_db_to_file_if_changed sample_manifest UPDATE_DB_FILE p in
  files p !! UPDATE_DB_FILE = Some content
  /\ file_json content = Loaded existing_db
  /\ lookup_path existing_db ["files"; client; "reboot"] = Some (JInt 1)
  /\ lookup_path sample_manifest ["files"; client; "reboot"] = Some (JBool true)
  /\ existing_db <> sample_manifest
  /\ ~ (files (snd run) !! UPDATE_DB_FILE = Some (encode_utf8 (json_dumps sample_manifest))
        /\ stdout (snd run) = ["Update database saved to mister_cloud_saves_db.json."])
  /\ run = (Return tt, unchanged p)
  /\ files (snd run) !! UPDATE_DB_FILE = Some content
  /\ stdout (snd run) = ["No changes detected in the update database."].
Proof.
  cbn zeta.
  split; [vm_compute; reflexivity|]. split; [vm_compute; reflexivity|].
  split; [reflexivity|]. split; [reflexivity|].
  split.
  { intros E.
    apply (f_equal (fun j => lookup_path j ["files"; "cloud_saves/updates/client.tar.xz";
                                            "reboot"])) in E.
    discriminate E. }
  split; [intros [_ E]; vm_compute in E; discriminate E|].
  repeat split; vm_compute; reflexivity.
Qed.

(** C3, as the code has it: when the file at the path holds a text that
    [json.load] rejects, the gate raises the [JSONDecodeError] of the
    unguarded load; nothing is written and nothing is printed. *)
Theorem save_raises_on_unparseable_file
    (update_db : json) (file_path : string) (p : process) (content : bytes) :
  files p !! file_path = Some content ->
  file_json content = DecodeError ->
  save_update_db_to_file_if_changed update_db file_path p = (Raise JSONDecodeError, p).
Proof. intros Hfile Hjson. rewrite save_run, Hfile, Hjson. reflexivity. Qed.

Lemma save_raises_on_unparseable_file_witness :
  save_update_db_to_file_if_changed sample_manifest UPDATE_DB_FILE
    (process_with_db (b "not json"))
  = (Raise JSONDecodeError, process_with_db (b "not json")).
Proof.
  apply (save_raises_on_unparseable_file sample_manifest UPDATE_DB_FILE
           (process_with_db (b "not json")) (b "not json"));
    vm_compute; reflexivity.
Defined.

(** C3, as stated, fails: with a database file holding [not json] the gate
    neither writes the document nor reports success; the file keeps its
    content. *)
Lemma save_overwrites_unparseable_counterexample :
  let p := process_with_db (b "not json") in
  let run := save_update_db_to_file_if_changed sample_manifest UPDATE_DB_FILE p in
  files p !! UPDATE_DB_FILE = Some (b "not json")
  /\ file_json (b "not json") = DecodeError
  /\ ~ (fst run = Return tt
        /\ files (snd run) !! UPDATE_DB_FILE
           = Some (encode_utf8 (json_dumps sample_manifest)))
  /\ fst run = Raise JSONDecodeError
  /\ files (snd run) !! UPDATE_DB_FILE = Some (b "not json")
  /\ stdout (snd run) = [].
Proof.
  cbn zeta.
  assert (Hfile : files (process_with_db (b "not json")) !! UPDATE_DB_FILE
                  = Some (b "not json")) by (vm_compute; reflexivity).
  assert (Hjson : file_json (b "not json") = DecodeError) by (vm_compute; reflexivity).
  rewrite save_run, Hfile, Hjson.
  split; [reflexivity|]. split; [reflexivity|].
  split; [intros [H _]; discriminate H|].
  split; [reflexivity|]. split; [exact Hfile | reflexivity].
Qed.

(** C6: when a run of the gate on a document has written the file and
    reported it, a second run on the same document reports no changes and
    leaves the files, the database among them, as the first run left them. *)
Theorem save_twice_is_noop (update_db : json) (file_path : string) (p0 p1 : process) :
  wf update_db ->
  save_update_db_to_file_if_changed update_db file_path p0 = (Return tt, p1) ->
  stdout p1 = stdout p0 ++ ["Update database saved to " +:+ file_path +:+ "."] ->
  files p1 !! file_path = Some (encode_utf8 (json_dumps update_db))
  /\ save_update_db_to_file_if_changed update_db file_path p1 = (Return tt, unchanged p1)
  /\ files (unchanged p1) = files p1
  /\ stdout (unchanged p1) = stdout p1 ++ ["No changes detected in the update database."].
Proof.
  intros Hwf Hrun Hout.
  assert (Hp1 : p1 = saved update_db file_path p0).
  { rewrite save_run in Hrun.
    destruct (files p0 !! file_path) as [content|]; [|congruence].
    destruct (file_json content) as [existing_db| |]; try discriminate Hrun.
    destruct (py_eq existing_db update_db); [|congruence].
    injection Hrun as <-. cbn in Hout. apply app_inv_head in Hout.
    discriminate Hout. }
  subst p1. split; [apply saved_file|]. split; [|split; reflexivity].
  rewrite save_run, saved_file, file_json_dump, py_eq_refl by exact Hwf.
  reflexivity.
Qed.

Lemma save_twice_is_noop_witness :
  let p1 := saved sample_manifest UPDATE_DB_FILE fresh_process in
  files p1 !! UPDATE_DB_FILE = Some (encode_utf8 (json_dumps sample_manifest))
  /\ save_update_db_to_file_if_changed sample_manifest UPDATE_DB_FILE p1
     = (Return tt, unchanged p1)
  /\ files (unchanged p1) = files p1
  /\ stdout (unchanged p1) = stdout p1 ++ ["No changes detected in the update database."].
Proof.
  apply (save_twice_is_noop sample_manifest UPDATE_DB_FILE fresh_process
           (saved sample_manifest UPDATE_DB_FILE fresh_process));
    [apply sample_manifest_wf | reflexivity | reflexivity].
Defined.

(** * Further properties of the script *)

(** ** The release locator *)

Lemma find_client_asset_first
    (tag : json) (before after : list json) (entry : dict) (p : process) :
  Forall other_asset before ->
  dict_get entry "name" = Some (JStr "client.tar.xz") ->
  find_client_asset tag (before ++ JDict entry :: after) p
  = (Return (Some (default JNull (dict_get entry "browser_download_url"), tag)), p).
Proof.
  intros Hbefore Hname.
  induction Hbefore as [|asset before (d & -> & Hd) _ IH].
  - cbn [app find_client_asset py_get]. rewrite ret_bind, Hname.
    cbn [from_option id py_eq]. rewrite String.eqb_refl, ret_bind. reflexivity.
  - cbn [app find_client_asset py_get]. rewrite ret_bind.
    destruct (py_eq _ _) eqn:E; [|exact IH].
    apply py_eq_str in E. exfalso. apply Hd.
    destruct (dict_get d "name"); cbn in E; congruence.
Qed.

(** X1: when the API answers with status 200 and release metadata that
    lists an asset named [client.tar.xz], the locator returns the
    [browser_download_url] of the first such asset ([None] when that asset
    has no such field) with the tag of the release, after one request and
    without printing anything. *)
Theorem locator_returns_first_client_asset
    (W : world) (p : process) (r : response) (data entry : dict) :
  network W (sent p) GH_REPO_API_URL = Answer r ->
  status_code r = 200 ->
  json_body r = Some (JDict data) ->
  client_asset data entry ->
  get_tag_and_latest_release_url W p
  = (Return (default JNull (dict_get entry "browser_download_url"),
             default (JStr "unknown") (dict_get data "tag_name")),
     after_request p).
Proof.
  intros Hnet Hst Hbody (before & after & Hassets & Hbefore & Hname).
  rewrite (locator_run W p r data Hnet Hst Hbody), Hassets.
  cbn [from_option id py_iter]. rewrite ret_bind.
  rewrite find_client_asset_first by assumption. reflexivity.
Qed.

Lemma client_asset_second :
  client_asset
    (release (Some "v1.2.3")
       [ asset "notes.txt" "https://example/notes.txt";
         asset "client.tar.xz" "https://example/client.tar.xz";
         asset "client.tar.xz" "https://example/other.tar.xz" ])
    [ ("name", JStr "client.tar.xz");
      ("browser_download_url", JStr "https://example/client.tar.xz") ].
Proof.
  exists [asset "notes.txt" "https://example/notes.txt"],
         [asset "client.tar.xz" "https://example/other.tar.xz"].
  split; [reflexivity|]. split; [|reflexivity].
  constructor; [|constructor]. eexists. split; [reflexivity|]. cbn. discriminate.
Qed.

Lemma locator_returns_first_client_asset_witness :
  let data :=
    release (Some "v1.2.3")
      [ asset "notes.txt" "https://example/notes.txt";
        asset "client.tar.xz" "https://example/client.tar.xz";
        asset "client.tar.xz" "https://example/other.tar.xz" ] in
  get_tag_and_latest_release_url (release_world data) fresh_process
  = (Return (JStr "https://example/client.tar.xz", JStr "v1.2.3"),
     after_request fresh_process).
Proof.
  intros data.
  apply (locator_returns_first_client_asset (release_world data) fresh_process
           (release_response data) data
           [ ("name", JStr "client.tar.xz");
             ("browser_download_url", JStr "https://example/client.tar.xz") ]);
    [reflexivity | reflexivity | reflexivity | exact client_asset_second].
Defined.

(** X2: when the API answers with a status other than 200, the locator
    does not read the body: it prints [Error fetching latest release info]
    and exits with status 1. *)
Theorem locator_exits_on_bad_status (W : world) (p : process) (r : response) :
  network W (sent p) GH_REPO_API_URL = Answer r ->
  status_code r <> 200 ->
  get_tag_and_latest_release_url W p
  = (SysExit 1, after_print "Error fetching latest release info" (after_request p)).
Proof.
  intros Hnet Hst. apply Z.eqb_neq in Hst.
  unfold get_tag_and_latest_release_url.
  rewrite bind_run. cbn [requests_get]. rewrite Hnet, Hst.
  fold (after_request p). rewrite ret_bind. reflexivity.
Qed.

Lemma locator_exits_on_bad_status_witness :
  get_tag_and_latest_release_url not_found_world fresh_process
  = (SysExit 1,
     after_print "Error fetching latest release info" (after_request fresh_process)).
Proof.
  apply (locator_exits_on_bad_status not_found_world fresh_process not_found);
    [reflexivity | vm_compute; discriminate].
Defined.

(** X3: when the API answers with status 200 and a JSON body that is not
    an object, [data.get] fails: the locator raises [AttributeError] and
    prints nothing. *)
Theorem locator_raises_on_non_object
    (W : world) (p : process) (r : response) (body : json) :
  network W (sent p) GH_REPO_API_URL = Answer r ->
  status_code r = 200 ->
  json_body r = Some body ->
  (forall data, body <> JDict data) ->
  get_tag_and_latest_release_url W p = (Raise AttributeError, after_request p).
Proof.
  intros Hnet Hst Hbody Hnot. unfold get_tag_and_latest_release_url.
  rewrite bind_run. cbn [requests_get]. rewrite Hnet, Hst. cbn [Z.eqb Pos.eqb].
  fold (after_request p). rewrite bind_run.
  unfold response_json. rewrite Hbody.
  rewrite (bind_run (mret body)). cbn [mret M_ret].
  destruct body as [| | | | |data]; try reflexivity.
  exfalso. exact (Hnot data eq_refl).
Qed.

Lemma locator_raises_on_non_object_witness :
  let r := {| status_code := 200; json_body := Some (JList []); iter_content := [] |} in
  let W := {| network := fun _ _ => Answer r; clock := 0;
              tmp_name := fun _ => "/tmp/tmpfile" |} in
  get_tag_and_latest_release_url W fresh_process
  = (Raise AttributeError, after_request fresh_process).
Proof.
  intros r W.
  apply (locator_raises_on_non_object W fresh_process r (JList []));
    [reflexivity | reflexivity | reflexivity | discriminate].
Defined.

(** X4: when the release metadata gives [assets] a value that is [null], a
    boolean or a number, the loop cannot start: the locator raises
    [TypeError] and prints nothing. *)
Theorem locator_raises_on_assets_not_iterable
    (W : world) (p : process) (r : response) (data : dict) (assets : json) :
  network W (sent p) GH_REPO_API_URL = Answer r ->
  status_code r = 200 ->
  json_body r = Some (JDict data) ->
  dict_get data "assets" = Some assets ->
  not_iterable assets ->
  get_tag_and_latest_release_url W p = (Raise TypeError, after_request p).
Proof.
  intros Hnet Hst Hbody Hassets Hnot.
  rewrite (locator_run W p r data Hnet Hst Hbody), Hassets.
  cbn [from_option id].
  destruct assets; try contradiction; reflexivity.
Qed.

Lemma locator_raises_on_assets_not_iterable_witness :
  let data := [("tag_name", JStr "v1.2.3"); ("assets", JNull)] in
  get_tag_and_latest_release_url (release_world data) fresh_process
  = (Raise TypeError, after_request fresh_process).
Proof.
  intros data.
  apply (locator_raises_on_assets_not_iterable (release_world data) fresh_process
           (release_response data) data JNull);
    [reflexivity | reflexivity | reflexivity | reflexivity | exact I].
Defined.

(** ** Fetching a file *)

Lemma delete_fresh (name : string) (fs : gmap string bytes) (q : process) :
  fs !! name = None -> files q = fs -> set_files (delete name fs) q = q.
Proof.
  intros Hfresh <-. rewrite delete_id by exact Hfresh. apply set_files_id.
Qed.

Lemma fetch_run_fresh (W : world) (url : json) (p : process) :
  files p !! tmp_name W (files p) = None ->
  get_file_hash_and_size W url p
  = match url with
    | JStr u =>
        match network W (sent p) u with
        | Answer r =>
            if status_code r =? 200 then
              (Return (Z.of_nat (length (concat (iter_content r))),
                       MD5.hexdigest (concat (iter_content r))),
               after_request p)
            else
              (SysExit 1, after_print "Error downloading client file" (after_request p))
        | NoAnswer => (Raise RequestException, after_request p)
        end
    | _ => (Raise RequestException, p)
    end.
Proof.
  intros Hfresh. rewrite get_file_hash_and_size_run. cbn zeta.
  destruct url as [| | |u| |];
    try (f_equal; apply delete_fresh; [exact Hfresh | reflexivity]).
  destruct (network W (sent p) u) as [r|];
    [destruct (status_code r =? 200)|];
    f_equal; apply delete_fresh; (exact Hfresh || reflexivity).
Qed.

(** X5: when the server answers a download with a status other than 200,
    the fetch prints [Error downloading client file] and exits with status
    1; the temporary file is gone and no other file is touched. *)
Theorem fetch_exits_on_bad_status (W : world) (u : string) (p : process) (r : response) :
  network W (sent p) u = Answer r ->
  status_code r <> 200 ->
  files p !! tmp_name W (files p) = None ->
  get_file_hash_and_size W (JStr u) p
  = (SysExit 1, after_print "Error downloading client file" (after_request p)).
Proof.
  intros Hnet Hst Hfresh. apply Z.eqb_neq in Hst.
  rewrite fetch_run_fresh by exact Hfresh. rewrite Hnet, Hst. reflexivity.
Qed.

Lemma fetch_exits_on_bad_status_witness :
  get_file_hash_and_size not_found_world (JStr SCRIPT_RAW_URL) fresh_process
  = (SysExit 1, after_print "Error downloading client file" (after_request fresh_process)).
Proof.
  apply (fetch_exits_on_bad_status not_found_world SCRIPT_RAW_URL fresh_process not_found);
    [reflexivity | vm_compute; discriminate | reflexivity].
Defined.

(** X6: however a fetch ends (with a size and a hash, with an exit, or
    with an exception of the request), it leaves the files as they were,
    the temporary file it wrote being removed, and it has sent one request
    at most. *)
Theorem fetch_keeps_files (W : world) (url : json) (p : process) :
  files p !! tmp_name W (files p) = None ->
  let p' := snd (get_file_hash_and_size W url p) in
  files p' = files p /\ (sent p' = sent p \/ sent p' = S (sent p)).
Proof.
  intros Hfresh. cbn zeta. rewrite fetch_run_fresh by exact Hfresh.
  destruct url as [| | |u| |]; try (split; [reflexivity | left; reflexivity]).
  destruct (network W (sent p) u) as [r|];
    [destruct (status_code r =? 200)|];
    (split; [reflexivity | right; reflexivity]).
Qed.

Lemma fetch_keeps_files_witness :
  let p' := snd (get_file_hash_and_size hello_world (JStr SCRIPT_RAW_URL) fresh_process) in
  files p' = files fresh_process
  /\ (sent p' = sent fresh_process \/ sent p' = S (sent fresh_process)).
Proof.
  apply (fetch_keeps_files hello_world (JStr SCRIPT_RAW_URL) fresh_process).
  reflexivity.
Defined.

(** ** Generating the document *)

Lemma fetch_files (W : world) (url : json) (p : process) :
  files p !! tmp_name W (files p) = None ->
  files (snd (get_file_hash_and_size W url p)) = files p.
Proof.
  intros Hfresh. rewrite fetch_run_fresh by exact Hfresh.
  destruct url as [| | |u| |]; try reflexivity.
  destruct (network W (sent p) u) as [r|]; [destruct (status_code r =? 200)|];
    reflexivity.
Qed.

Lemma locator_files (W : world) (p : process) :
  files (snd (get_tag_and_latest_release_url W p)) = files p.
Proof.
  unfold get_tag_and_latest_release_url. rewrite bind_run.
  cbn [requests_get]. destruct (network W (sent p) GH_REPO_API_URL) as [r|]; [|reflexivity].
  fold (after_request p). rewrite bind_run.
  destruct (status_code r =? 200); [|reflexivity].
  rewrite bind_run. unfold response_json.
  destruct (json_body r) as [body|]; [|reflexivity].
  cbn [mret M_ret]. rewrite bind_run.
  destruct body as [| | | | |data]; try reflexivity.
  cbn [py_get mret M_ret]. rewrite bind_run. cbn [mret M_ret].
  rewrite bind_run.
  pose proof (py_iter_pure (from_option id (JList []) (dict_get data "assets"))
                (after_request p)) as Hiter.
  destruct (py_iter _ _) as [[assets| | |] q]; cbn [snd] in Hiter; subst q;
    try reflexivity.
  destruct (find_client_asset_pure
              (from_option id (JStr "unknown") (dict_get data "tag_name"))
              assets (after_request p)) as [Hfind _].
  destruct (find_client_asset _ _ _) as [[[result|]| | |] q]; cbn [snd] in Hfind; subst q;
    reflexivity.
Qed.

Lemma generate_files (W : world) (p : process) :
  files p !! tmp_name W (files p) = None ->
  files (snd (generate_update_db W p)) = files p.
Proof.
  intros Hfresh. rewrite generate_update_db_run.
  pose proof (locator_files W p) as H1.
  destruct (get_tag_and_latest_release_url W p) as [[[url tag]| | |] p1];
    cbn [snd] in H1; try exact H1.
  assert (Hfresh1 : files p1 !! tmp_name W (files p1) = None) by (rewrite H1; exact Hfresh).
  pose proof (fetch_files W (JStr SCRIPT_RAW_URL) p1 Hfresh1) as H2.
  destruct (get_file_hash_and_size W (JStr SCRIPT_RAW_URL) p1) as [[[ss sh]| | |] p2];
    cbn [snd] in H2; try (rewrite <- H1; exact H2).
  assert (Hfresh2 : files p2 !! tmp_name W (files p2) = None)
    by (rewrite H2; exact Hfresh1).
  pose proof (fetch_files W url p2 Hfresh2) as H3.
  destruct (get_file_hash_and_size W url p2) as [[[cs ch]| | |] p3];
    cbn [snd] in H3; rewrite <- H1, <- H2; exact H3.
Qed.

(** X7: when the locator returns a URL and both downloads are answered with
    status 200, the document is the schema filled with the time of the run,
    the length and the MD5 digest of what each download delivered, the raw
    URL of the script and the URL the locator returned; the script is
    requested before the client, and no file is left behind. *)
Theorem generate_update_db_fills_manifest
    (W : world) (p p1 : process) (u : string) (tag : json) (rs rc : response) :
  get_tag_and_latest_release_url W p = (Return (JStr u, tag), p1) ->
  network W (sent p1) SCRIPT_RAW_URL = Answer rs ->
  status_code rs = 200 ->
  network W (S (sent p1)) u = Answer rc ->
  status_code rc = 200 ->
  files p1 !! tmp_name W (files p1) = None ->
  let script := concat (iter_content rs) in
  let client := concat (iter_content rc) in
  generate_update_db W p
  = (Return (manifest (clock W)
               (Z.of_nat (length script)) (MD5.hexdigest script)
               (Z.of_nat (length client)) (MD5.hexdigest client) (JStr u)),
     after_request (after_request p1)).
Proof.
  intros Hloc Hnets Hsts Hnetc Hstc Hfresh script client.
  rewrite generate_update_db_run, Hloc.
  rewrite (fetch_run_fresh W (JStr SCRIPT_RAW_URL) p1 Hfresh), Hnets, Hsts.
  cbn [Z.eqb Pos.eqb].
  rewrite (fetch_run_fresh W (JStr u) (after_request p1)) by exact Hfresh.
  cbn [sent after_request]. rewrite Hnetc, Hstc. reflexivity.
Qed.

Lemma generate_update_db_fills_manifest_witness :
  let data := release (Some "v1.2.3") [asset "client.tar.xz" "https://example/client.tar.xz"] in
  generate_update_db (release_world data) fresh_process
  = (Return (manifest 1700000000 11 "5eb63bbbe01eeed093cb22bb8f5acdc3"
               11 "5eb63bbbe01eeed093cb22bb8f5acdc3"
               (JStr "https://example/client.tar.xz")),
     after_request (after_request (after_request fresh_process))).
Proof.
  intros data.
  pose proof (generate_update_db_fills_manifest (release_world data) fresh_process
                (after_request fresh_process) "https://example/client.tar.xz"
                (JStr "v1.2.3") hello_response hello_response) as H.
  cbn zeta in H. rewrite H; [|reflexivity..].
  vm_compute. reflexivity.
Defined.

(** X8: when the locator returns and the download of the script is
    answered with a status other than 200, the run prints
    [Error downloading client file] and exits with status 1 after two
    requests: the client archive is not requested and no document is
    made. *)
Theorem generate_update_db_exits_when_script_fails
    (W : world) (p p1 : process) (url tag : json) (rs : response) :
  get_tag_and_latest_release_url W p = (Return (url, tag), p1) ->
  network W (sent p1) SCRIPT_RAW_URL = Answer rs ->
  status_code rs <> 200 ->
  files p1 !! tmp_name W (files p1) = None ->
  generate_update_db W p
  = (SysExit 1, after_print "Error downloading client file" (after_request p1)).
Proof.
  intros Hloc Hnets Hsts Hfresh. apply Z.eqb_neq in Hsts.
  rewrite generate_update_db_run, Hloc.
  rewrite (fetch_run_fresh W (JStr SCRIPT_RAW_URL) p1 Hfresh), Hnets, Hsts.
  reflexivity.
Qed.

Lemma generate_update_db_exits_when_script_fails_witness :
  let data := release (Some "v1.2.3") [asset "client.tar.xz" "https://example/client.tar.xz"] in
  generate_update_db (release_only_world data) fresh_process
  = (SysExit 1,
     after_print "Error downloading client file"
       (after_request (after_request fresh_process))).
Proof.
  intros data.
  apply (generate_update_db_exits_when_script_fails (release_only_world data)
           fresh_process (after_request fresh_process)
           (JStr "https://example/client.tar.xz") (JStr "v1.2.3") not_found);
    [reflexivity | reflexivity | vm_compute; discriminate | reflexivity].
Defined.

(** X9: when the asset named [client.tar.xz] has no
    [browser_download_url] that is a string, the locator still returns;
    the script is downloaded, and the request for the client archive then
    fails in [requests.get]: the run raises the exception of the request,
    prints nothing and makes no document. *)
Theorem generate_update_db_raises_without_download_url
    (W : world) (p p1 : process) (url tag : json) (rs : response) :
  get_tag_and_latest_release_url W p = (Return (url, tag), p1) ->
  (forall u, url <> JStr u) ->
  network W (sent p1) SCRIPT_RAW_URL = Answer rs ->
  status_code rs = 200 ->
  files p1 !! tmp_name W (files p1) = None ->
  generate_update_db W p = (Raise RequestException, after_request p1).
Proof.
  intros Hloc Hurl Hnets Hsts Hfresh.
  rewrite generate_update_db_run, Hloc.
  rewrite (fetch_run_fresh W (JStr SCRIPT_RAW_URL) p1 Hfresh), Hnets, Hsts.
  cbn [Z.eqb Pos.eqb].
  rewrite (fetch_run_fresh W url (after_request p1)) by exact Hfresh.
  destruct url as [| | |u| |]; try reflexivity.
  exfalso. exact (Hurl u eq_refl).
Qed.

Lemma generate_update_db_raises_without_download_url_witness :
  let data := release (Some "v1.2.3") [JDict [("name", JStr "client.tar.xz")]] in
  generate_update_db (release_world data) fresh_process
  = (Raise RequestException, after_request (after_request fresh_process)).
Proof.
  intros data.
  apply (generate_update_db_raises_without_download_url (release_world data)
           fresh_process (after_request fresh_process) JNull (JStr "v1.2.3")
           hello_response);
    [reflexivity | discriminate | reflexivity | reflexivity | reflexivity].
Defined.

(** X10: however the generation ends, it leaves the files as they were: it
    writes nothing but the temporary files of its downloads, which are
    removed. *)
Theorem generate_update_db_keeps_files (W : world) (p : process) :
  files p !! tmp_name W (files p) = None ->
  files (snd (generate_update_db W p)) = files p.
Proof.
  intros Hfresh.
  pose proof (generate_files W p Hfresh) as H.
  destruct (generate_update_db W p) as [r p']. exact H.
Qed.

Lemma generate_update_db_keeps_files_witness :
  let data := release (Some "v1.2.3") [asset "client.tar.xz" "https://example/client.tar.xz"] in
  files (snd (generate_update_db (release_world data) (process_with_db (b "{}"))))
  = files (process_with_db (b "{}")).
Proof.
  intros data.
  apply (generate_update_db_keeps_files (release_world data) (process_with_db (b "{}"))).
  vm_compute. reflexivity.
Defined.

(** ** The persistence gate *)

(** X11: the gate changes no file but the one at [file_path], whatever it
    finds there and however it ends, and sends no request. *)
Theorem save_touches_only_its_file
    (update_db : json) (file_path other : string) (p : process) :
  other <> file_path ->
  let p' := snd (save_update_db_to_file_if_changed update_db file_path p) in
  files p' !! other = files p !! other /\ sent p' = sent p.
Proof.
  intros Hother. cbn zeta. rewrite save_run.
  assert (Hsaved : files (saved update_db file_path p) !! other = files p !! other)
    by (cbn; apply lookup_insert_ne; congruence).
  destruct (files p !! file_path) as [content|]; [|split; [exact Hsaved | reflexivity]].
  destruct (file_json content) as [existing_db| |]; try (split; reflexivity).
  destruct (py_eq existing_db update_db); split; (exact Hsaved || reflexivity).
Qed.

Lemma save_touches_only_its_file_witness :
  let p := process_with_db (b "{}") in
  let p' := snd (save_update_db_to_file_if_changed sample_manifest "other.json" p) in
  files p' !! UPDATE_DB_FILE = files p !! UPDATE_DB_FILE /\ sent p' = sent p.
Proof.
  intros p.
  apply (save_touches_only_its_file sample_manifest "other.json" UPDATE_DB_FILE p).
  discriminate.
Defined.

Lemma save_returns (update_db : json) (file_path : string) (p p' : process) :
  wf update_db ->
  save_update_db_to_file_if_changed update_db file_path p = (Return tt, p') ->
  exists content existing_db,
    files p' !! file_path = Some content
    /\ file_json content = Loaded existing_db
    /\ py_eq existing_db update_db = true.
Proof.
  intros Hwf. rewrite save_run.
  assert (Hsaved : exists content existing_db,
             files (saved update_db file_path p) !! file_path = Some content
             /\ file_json content = Loaded existing_db
             /\ py_eq existing_db update_db = true).
  { exists (encode_utf8 (json_dumps update_db)), update_db.
    split; [apply saved_file|]. split; [apply file_json_dump, Hwf | apply py_eq_refl, Hwf]. }
  destruct (files p !! file_path) as [content|] eqn:Hfile.
  - destruct (file_json content) as [existing_db| |] eqn:Hjson; try discriminate.
    destruct (py_eq existing_db update_db) eqn:Heq; intros [= <-]; [|exact Hsaved].
    exists content, existing_db. split; [exact Hfile|]. split; [exact Hjson | exact Heq].
  - intros [= <-]. exact Hsaved.
Qed.

(** X12: whenever the gate returns, on either branch, the file at
    [file_path] exists and holds JSON text that [json.load] reads as a
    document equal to [update_db]. *)
Theorem save_leaves_equal_document
    (update_db : json) (file_path : string) (p p' : process) :
  wf update_db ->
  save_update_db_to_file_if_changed update_db file_path p = (Return tt, p') ->
  exists content existing_db,
    files p' !! file_path = Some content
    /\ file_json content = Loaded existing_db
    /\ py_eq existing_db update_db = true.
Proof. apply save_returns. Qed.

Lemma save_leaves_equal_document_witness :
  let p := process_with_db (b "{}") in
  exists content existing_db,
    files (saved sample_manifest UPDATE_DB_FILE p) !! UPDATE_DB_FILE = Some content
    /\ file_json content = Loaded existing_db
    /\ py_eq existing_db sample_manifest = true.
Proof.
  intros p.
  apply (save_leaves_equal_document sample_manifest UPDATE_DB_FILE p
           (saved sample_manifest UPDATE_DB_FILE p));
    [exact sample_manifest_wf | vm_compute; reflexivity].
Defined.

Lemma py_eq_permutation (d d' : dict) :
  wf (JDict d) -> Permutation d' d -> py_eq (JDict d') (JDict d) = true.
Proof.
  intros Hwf Hperm. apply wf_dict in Hwf as [Hnodup Hvalues].
  rewrite py_eq_dict. apply andb_true_intro. split.
  - apply Nat.eqb_eq, Permutation_length, Hperm.
  - unfold members_eq. apply forallb_forall. intros [k v] Hin.
    assert (Hin' : In (k, v) d) by (eapply Permutation_in; eassumption).
    cbn [fst snd]. rewrite (dict_get_nodup d k v Hnodup Hin').
    apply py_eq_refl. rewrite List.Forall_forall in Hvalues.
    exact (Hvalues (k, v) Hin').
Qed.

(** X13: the order of the keys in the existing file does not count: when
    the file holds the members of [update_db] in another order, the gate
    reports no change and writes nothing. *)
Theorem save_ignores_key_order
    (d d' : dict) (file_path : string) (p : process) (content : bytes) :
  wf (JDict d) ->
  Permutation d' d ->
  files p !! file_path = Some content ->
  file_json content = Loaded (JDict d') ->
  save_update_db_to_file_if_changed (JDict d) file_path p = (Return tt, unchanged p).
Proof.
  intros Hwf Hperm Hfile Hjson.
  rewrite save_run, Hfile, Hjson, py_eq_permutation by assumption. reflexivity.
Qed.

Lemma save_ignores_key_order_witness :
  let d := [("v", JInt 1); ("db_id", JStr "mister_cloud_saves")] in
  let d' := [("db_id", JStr "mister_cloud_saves"); ("v", JInt 1)] in
  let p := process_with_db (encode_utf8 (json_dumps (JDict d'))) in
  save_update_db_to_file_if_changed (JDict d) UPDATE_DB_FILE p = (Return tt, unchanged p).
Proof.
  intros d d' p.
  apply (save_ignores_key_order d d' UPDATE_DB_FILE p (encode_utf8 (json_dumps (JDict d'))));
    [ | apply perm_swap | reflexivity | vm_compute; reflexivity].
  cbn. repeat split; apply (bool_decide_unpack _); vm_compute; exact I.
Defined.

Lemma skip_ws_all (ws : text) : Forall (fun c => is_ws c = true) ws -> skip_ws ws = [].
Proof. induction 1 as [|c ws Hc _ IH]; [reflexivity|]. cbn [skip_ws]. rewrite Hc. exact IH. Qed.

Lemma is_ws_ascii (c : ascii) : is_ws c = true -> is_ascii c.
Proof.
  unfold is_ws. rewrite !orb_true_iff, !Ascii.eqb_eq.
  intros [[[-> | ->] | ->] | ->]; reflexivity.
Qed.

Lemma file_json_trailing (v : json) (ws : text) :
  wf v ->
  Forall (fun c => is_ws c = true) ws ->
  file_json (encode_utf8 (json_dumps v ++ "010"%char :: ws)) = Loaded v.
Proof.
  intros Hwf Hws. unfold file_json.
  rewrite decode_encode_utf8.
  - unfold json_loads, json_dumps. rewrite skip_ws_dump.
    rewrite (scan_once_dump v Hwf 0%nat).
    + cbn [skip_ws is_ws Ascii.eqb Bool.eqb orb]. rewrite skip_ws_all by exact Hws.
      reflexivity.
    + pose proof (fuel_for_length v 0%nat). rewrite length_app. lia.
    + right. reflexivity.
  - apply Forall_app. split; [apply dump_ascii|].
    constructor; [reflexivity|].
    eapply Forall_impl; [exact Hws | exact is_ws_ascii].
Qed.

(** X14: white space after the document does not count either: when the
    file holds the text [json.dump] writes for [update_db] followed by a
    new line and any white space, the gate reports no change and leaves
    the file as it is. *)
Theorem save_unchanged_with_trailing_newline
    (update_db : json) (file_path : string) (p : process) (ws : text) :
  wf update_db ->
  Forall (fun c => is_ws c = true) ws ->
  files p !! file_path = Some (encode_utf8 (json_dumps update_db ++ "010"%char :: ws)) ->
  save_update_db_to_file_if_changed update_db file_path p = (Return tt, unchanged p).
Proof.
  intros Hwf Hws Hfile.
  rewrite save_run, Hfile, file_json_trailing, py_eq_refl by assumption. reflexivity.
Qed.

Lemma save_unchanged_with_trailing_newline_witness :
  let p := process_with_db (encode_utf8 (json_dumps sample_manifest ++ ["010"%char])) in
  save_update_db_to_file_if_changed sample_manifest UPDATE_DB_FILE p
  = (Return tt, unchanged p).
Proof.
  intros p.
  apply (save_unchanged_with_trailing_newline sample_manifest UPDATE_DB_FILE p []);
    [exact sample_manifest_wf | constructor | reflexivity].
Defined.

(** X15: the file the gate writes is plain ASCII, whatever the strings of
    the document hold: when no file exists at [file_path], the file the
    gate leaves has every byte below 128, and its text is the one
    [json.dump] made. *)
Theorem save_writes_ascii (update_db : json) (file_path : string) (p : process) :
  files p !! file_path = None ->
  exists content,
    files (snd (save_update_db_to_file_if_changed update_db file_path p)) !! file_path
    = Some content
    /\ Forall (fun x => byte_to_Z x < 128) content
    /\ decode_utf8 content = Some (json_dumps update_db).
Proof.
  intros Hfile. rewrite save_run, Hfile. cbn [snd].
  exists (encode_utf8 (json_dumps update_db)).
  split; [apply saved_file|]. split.
  - unfold encode_utf8. apply Forall_map.
    eapply Forall_impl; [apply dump_ascii|].
    intros c Hc. cbn. rewrite byte_to_Z_of_ascii. exact Hc.
  - apply decode_encode_utf8, dump_ascii.
Qed.

Lemma save_writes_ascii_witness :
  let update_db := JDict [("name", JStr (String "233"%char EmptyString))] in
  exists content,
    files (snd (save_update_db_to_file_if_changed update_db UPDATE_DB_FILE fresh_process))
      !! UPDATE_DB_FILE = Some content
    /\ Forall (fun x => byte_to_Z x < 128) content
    /\ decode_utf8 content = Some (json_dumps update_db).
Proof.
  intros update_db.
  apply (save_writes_ascii update_db UPDATE_DB_FILE fresh_process).
  reflexivity.
Defined.

(** ** The whole run *)

Lemma main_run (W : world) (p : process) :
  main W p
  = match generate_update_db W p with
    | (Return update_db, p') =>
        save_update_db_to_file_if_changed update_db UPDATE_DB_FILE p'
    | (SysExit st, p') => (SysExit st, p')
    | (Raise e, p') => (Raise e, p')
    | (OutsideModel, p') => (OutsideModel, p')
    end.
Proof. unfold main. apply bind_run. Qed.

(** X16: when the generation does not return a document, the gate is not
    reached: the run ends as the generation ended, having printed what the
    generation printed, and every file, the database among them, is as it
    was. *)
Theorem main_keeps_database_when_generation_fails (W : world) (p : process) :
  (forall update_db, fst (generate_update_db W p) <> Return update_db) ->
  files p !! tmp_name W (files p) = None ->
  (forall r, fst (main W p) <> Return r)
  /\ snd (main W p) = snd (generate_update_db W p)
  /\ files (snd (main W p)) = files p.
Proof.
  intros Hfails Hfresh. pose proof (generate_files W p Hfresh) as Hfiles.
  rewrite main_run.
  destruct (generate_update_db W p) as [[update_db| | |] p']; cbn [fst snd] in *;
    [exfalso; exact (Hfails update_db eq_refl) | | |];
    (split; [discriminate | split; [reflexivity | exact Hfiles]]).
Qed.

Lemma main_keeps_database_when_generation_fails_witness :
  let p := process_with_db (b "{}") in
  (forall r, fst (main not_found_world p) <> Return r)
  /\ snd (main not_found_world p) = snd (generate_update_db not_found_world p)
  /\ files (snd (main not_found_world p)) = files p.
Proof.
  intros p.
  apply (main_keeps_database_when_generation_fails not_found_world p);
    [intros update_db; vm_compute; discriminate | vm_compute; reflexivity].
Defined.

Lemma py_eq_manifest (t0 t1 script_size : Z) (script_hash : string)
    (client_size : Z) (client_hash client_url : string) :
  py_eq (manifest t0 script_size script_hash client_size client_hash (JStr client_url))
        (manifest t1 script_size script_hash client_size client_hash (JStr client_url))
  = (t0 =? t1).
Proof.
  unfold manifest. rewrite py_eq_dict. unfold members_eq.
  cbn -[Z.eqb]. rewrite !Z.eqb_refl, !String.eqb_refl.
  destruct (t0 =? t1); reflexivity.
Qed.

(** X17: the time of the run is part of the document the gate compares.
    When the database file holds the document of the run but for its
    timestamp, the run rewrites the file unless the timestamps agree: a
    later run rewrites the database even when nothing it downloads has
    changed. *)
Theorem main_rewrites_unless_same_second
    (W : world) (p p' : process) (update_db : json) (t0 : Z) :
  generate_update_db W p = (Return update_db, p') ->
  files p' !! UPDATE_DB_FILE
  = Some (encode_utf8 (json_dumps (replace_path update_db ["timestamp"] (JInt t0)))) ->
  main W p
  = (Return tt,
     if t0 =? clock W then unchanged p' else saved update_db UPDATE_DB_FILE p').
Proof.
  intros Hgen Hfile.
  destruct (generate_update_db_returns W p p' update_db Hgen)
    as (ss & sh & cs & ch & u & ->).
  change (replace_path (manifest (clock W) ss sh cs ch (JStr u)) ["timestamp"] (JInt t0))
    with (manifest t0 ss sh cs ch (JStr u)) in Hfile.
  rewrite main_run, Hgen, save_run, Hfile.
  rewrite file_json_dump by apply manifest_wf.
  rewrite py_eq_manifest. destruct (t0 =? clock W); reflexivity.
Qed.

Lemma main_rewrites_unless_same_second_witness :
  let data := release (Some "v1.2.3") [asset "client.tar.xz" "https://example/client.tar.xz"] in
  let old := replace_path sample_manifest ["timestamp"] (JInt 1600000000) in
  let p := process_with_db (encode_utf8 (json_dumps old)) in
  let p' := after_request (after_request (after_request p)) in
  main (release_world data) p = (Return tt, saved sample_manifest UPDATE_DB_FILE p').
Proof.
  intros data old p p'.
  apply (main_rewrites_unless_same_second (release_world data) p p' sample_manifest
           1600000000);
    vm_compute; reflexivity.
Defined.

(** X18: whenever the whole run returns, the generation has returned a
    document and the database file holds JSON text that [json.load] reads
    as a document equal to it. *)
Theorem main_leaves_generated_document (W : world) (p p' : process) :
  main W p = (Return tt, p') ->
  exists update_db q content existing_db,
    generate_update_db W p = (Return update_db, q)
    /\ files p' !! UPDATE_DB_FILE = Some content
    /\ file_json content = Loaded existing_db
    /\ py_eq existing_db update_db = true.
Proof.
  rewrite main_run.
  destruct (generate_update_db W p) as [[update_db| | |] q] eqn:Hgen; try discriminate.
  intros Hsave.
  destruct (save_returns update_db UPDATE_DB_FILE q p'
              (generate_update_db_wf W p q update_db Hgen) Hsave)
    as (content & existing_db & H).
  exists update_db, q, content, existing_db. split; [reflexivity | exact H].
Qed.

Lemma main_leaves_generated_document_witness :
  let data := release (Some "v1.2.3") [asset "client.tar.xz" "https://example/client.tar.xz"] in
  let q := after_request (after_request (after_request fresh_process)) in
  exists update_db q' content existing_db,
    generate_update_db (release_world data) fresh_process = (Return update_db, q')
    /\ files (saved sample_manifest UPDATE_DB_FILE q) !! UPDATE_DB_FILE = Some content
    /\ file_json content = Loaded existing_db
    /\ py_eq existing_db update_db = true.
Proof.
  intros data q.
  apply (main_leaves_generated_document (release_world data) fresh_process
           (saved sample_manifest UPDATE_DB_FILE q)).
  vm_compute. reflexivity.
Defined.

(** ** The digest as the document holds it *)

Lemma length_le_bytes (n : nat) (x : Z) : length (MD5.le_bytes n x) = n.
Proof. revert x. induction n as [|n IH]; intros x; cbn; [reflexivity | f_equal; apply IH]. Qed.

Lemma length_digest_of_state (h : MD5.state) : length (MD5.digest_of_state h) = 16%nat.
Proof.
  destruct h as [[[a b0] c] d]. unfold MD5.digest_of_state.
  rewrite !length_app, !length_le_bytes. reflexivity.
Qed.

Lemma hex_digit_spec (n : Z) :
  0 <= n < 16 -> In (MD5.hex_digit n) (list_ascii_of_string "0123456789abcdef").
Proof.
  intros Hn. unfold MD5.hex_digit. apply nth_In.
  change (length (list_ascii_of_string "0123456789abcdef")) with 16%nat. lia.
Qed.

Lemma byte_to_Z_range (x : byte) : 0 <= byte_to_Z x < 256.
Proof.
  unfold byte_to_Z. pose proof (Byte.to_N_bounded x) as H. lia.
Qed.

Lemma hex_spec (l : bytes) :
  String.length (MD5.hex l) = (2 * length l)%nat
  /\ Forall (fun c => In c (list_ascii_of_string "0123456789abcdef"))
       (list_ascii_of_string (MD5.hex l)).
Proof.
  induction l as [|x l [IHlen IHall]]; [split; [reflexivity | constructor]|].
  pose proof (byte_to_Z_range x) as Hx.
  cbn [MD5.hex String.length list_ascii_of_string length]. split; [lia|].
  constructor; [apply hex_digit_spec; split;
                  [apply Z.div_pos; lia | apply Z.div_lt_upper_bound; lia]|].
  constructor; [apply hex_digit_spec, Z.mod_pos_bound; lia | exact IHall].
Qed.

(** X19: for every file, [compute_file_hash] returns 32 characters, each a
    digit or a letter from [a] to [f], and leaves the process as it was. *)
Theorem compute_file_hash_format (file_path : string) (p : process) (content : bytes) :
  files p !! file_path = Some content ->
  exists file_hash,
    compute_file_hash file_path p = (Return file_hash, p)
    /\ String.length file_hash = 32%nat
    /\ Forall (fun c => In c (list_ascii_of_string "0123456789abcdef"))
         (list_ascii_of_string file_hash).
Proof.
  intros Hfile. exists (MD5.hexdigest content).
  split; [apply compute_file_hash_spec, Hfile|].
  unfold MD5.hexdigest, MD5.digest.
  destruct (hex_spec (MD5.digest_of_state
              (fold_left MD5.compress
                 (MD5.blocks (content ++ MD5.padding (length content))) MD5.init)))
    as [Hlen Hall].
  rewrite length_digest_of_state in Hlen. split; [exact Hlen | exact Hall].
Qed.

Lemma compute_file_hash_format_witness :
  exists file_hash,
    compute_file_hash UPDATE_DB_FILE (process_with_db []) 
    = (Return file_hash, process_with_db [])
    /\ String.length file_hash = 32%nat
    /\ Forall (fun c => In c (list_ascii_of_string "0123456789abcdef"))
         (list_ascii_of_string file_hash).
Proof.
  apply (compute_file_hash_format UPDATE_DB_FILE (process_with_db []) []).
  reflexivity.
Defined.
